(** * Condor3XY2LatLon_persistent: the persistent X,Y -> Lon,Lat bridge

    A shallow embedding of [main] of [Condor3XY2LatLon_persistent.cpp]:
    the start-up sequence (argument check, registry lookup, loading of
    NaviCon.dll, resolution of its three entry points, [NaviConInit]) and
    the request loop that reads "X Y" lines from standard input and writes
    "LON,LAT" lines to standard output.

    The operating system, the dynamic library and the two standard streams
    are explicit: the host is a record, the library a record of optional
    entry points acting on a hidden state, standard input a list of lines
    and everything the process does a list of events. *)

From Stdlib Require Import ZArith List String Ascii Bool Arith Lia.
From Stdlib Require Import Floats.SpecFloat.
Import ListNotations.
Open Scope string_scope.

(** ** [std::string] operations used by [main] *)

Module Str.

(** A position in a string, or [std::string::npos]. *)
Inductive size_type := npos | pos (n : nat).

(** [p + 1] in [size_t] arithmetic: [npos] is the largest value, so
    [npos + 1] wraps around to 0. *)
Definition next (p : size_type) : nat :=
  match p with npos => 0 | pos n => S n end.

Fixpoint contains (chars : string) (c : ascii) : bool :=
  match chars with
  | EmptyString => false
  | String d chars' => Ascii.eqb c d || contains chars' c
  end.

Fixpoint take (n : nat) (s : string) : string :=
  match n, s with
  | S n', String c s' => String c (take n' s')
  | _, _ => EmptyString
  end.

Fixpoint drop (n : nat) (s : string) : string :=
  match n, s with
  | S n', String _ s' => drop n' s'
  | _, _ => s
  end.

(** [s.find_first_not_of(chars)] *)
Fixpoint find_first_not_of (s chars : string) : size_type :=
  match s with
  | EmptyString => npos
  | String c s' =>
      if contains chars c
      then match find_first_not_of s' chars with
           | npos => npos
           | pos n => pos (S n)
           end
      else pos 0
  end.

(** [s.find_last_not_of(chars)] *)
Fixpoint find_last_not_of (s chars : string) : size_type :=
  match s with
  | EmptyString => npos
  | String c s' =>
      match find_last_not_of s' chars with
      | pos n => pos (S n)
      | npos => if contains chars c then npos else pos 0
      end
  end.

(** [s.erase(index, count)]: removes [min(count, size - index)]
    characters starting at [index]; [count = npos] removes the tail. *)
Definition erase (s : string) (index : nat) (count : size_type) : string :=
  match count with
  | npos => take index s
  | pos n => take index s ++ drop (index + n) s
  end.

(** [s.find(needle)] *)
Definition find (s needle : string) : size_type :=
  match String.index 0 needle s with
  | Some n => pos n
  | None => npos
  end.

(** [s.find(ch)] *)
Definition find_char (s : string) (ch : ascii) : size_type :=
  find s (String ch EmptyString).

Definition is_npos (p : size_type) : bool :=
  match p with npos => true | pos _ => false end.

End Str.

(** The characters removed by the trimming step, [" \t\r\n"]. *)
Definition trim_set : string :=
  String " " (String "009" (String "013" (String "010" EmptyString))).

(** Lines 101-102: the two [erase] calls that trim the line. *)
Definition trim (line : string) : string :=
  let line := Str.erase line 0 (Str.find_first_not_of line trim_set) in
  Str.erase line (Str.next (Str.find_last_not_of line trim_set)) Str.npos.

(** ** 32-bit floats

    [float] is IEEE-754 binary32: the two zeros, the two infinities, the
    finite numbers [(-1)^s * m * 2^e] of [spec_float] with a 24-bit
    significand and exponent bound 128, and the not-a-numbers.  A
    not-a-number has a sign bit and a payload; of the payload the value
    keeps [chars], the character sequence the C library writes for it in
    parentheses behind [nan], if it writes one (C11 7.21.6.1: [nan] or
    [nan(n-char-sequence)], the choice being left to the library). *)

Variant f32 :=
| F754_zero (s : bool)
| F754_infinity (s : bool)
| F754_nan (s : bool) (chars : option string)
| F754_finite (s : bool) (m : positive) (e : Z).

Definition prec32 : Z := 24.
Definition emax32 : Z := 128.

(** A result of the rounding functions of [SpecFloat] as a [float]. *)
Definition of_spec (v : spec_float) : f32 :=
  match v with
  | S754_zero s => F754_zero s
  | S754_infinity s => F754_infinity s
  | S754_nan => F754_nan false None
  | S754_finite s m e => F754_finite s m e
  end.

Definition is_finite (f : f32) : bool :=
  match f with
  | F754_zero _ | F754_finite _ _ _ => true
  | F754_infinity _ | F754_nan _ _ => false
  end.

(** ** Formatted extraction of a [float]: [iss >> x]

    [operator>>] skips leading white space ([std::isspace] in the classic
    locale), gathers the longest floating-point field (an optional sign,
    digits, an optional point followed by digits, then an optional exponent:
    [e] or [E], an optional sign, digits) and converts it.
    The extraction fails when the field has no mantissa digit, when an
    exponent mark is not followed by a digit, or when the value is too
    large for a [float].  A value too small for a [float] is rounded like
    any other; nothing below depends on that choice. *)

Definition isspace (c : ascii) : bool :=
  let n := nat_of_ascii c in
  ((n =? 32) || ((9 <=? n) && (n <=? 13)))%nat.

Definition isdigit (c : ascii) : bool :=
  let n := nat_of_ascii c in ((48 <=? n) && (n <=? 57))%nat.

Definition digit_val (c : ascii) : Z := Z.of_nat (nat_of_ascii c - 48).

Fixpoint skipws (s : string) : string :=
  match s with
  | String c s' => if isspace c then skipws s' else s
  | EmptyString => s
  end.

(** The digits at the front of [s], and what follows them. *)
Fixpoint span_digits (s : string) : list Z * string :=
  match s with
  | String c s' =>
      if isdigit c
      then let '(ds, r) := span_digits s' in (digit_val c :: ds, r)
      else ([], s)
  | EmptyString => ([], s)
  end.

Definition take_sign (s : string) : bool * string :=
  match s with
  | String c s' =>
      if Ascii.eqb c "-" then (true, s')
      else if Ascii.eqb c "+" then (false, s')
      else (false, s)
  | EmptyString => (false, s)
  end.

Definition take_point (s : string) : bool * string :=
  match s with
  | String c s' => if Ascii.eqb c "." then (true, s') else (false, s)
  | EmptyString => (false, s)
  end.

Definition is_exp_mark (c : ascii) : bool :=
  Ascii.eqb c "e" || Ascii.eqb c "E".

(** A gathered floating-point field. *)
Record field := {
  f_neg  : bool;          (* leading minus sign *)
  f_int  : list Z;        (* digits before the point *)
  f_frac : list Z;        (* digits after the point *)
  f_exp  : Z              (* value of the exponent part, 0 if absent *)
}.

Definition digits_value (ds : list Z) : Z :=
  fold_left (fun acc d => 10 * acc + d)%Z ds 0%Z.

(** Gathers one field; [None] is a field that cannot be converted. *)
Definition scan_field (s : string) : option (field * string) :=
  let '(neg, s1) := take_sign s in
  let '(ip, s2) := span_digits s1 in
  let '(_, s3) := take_point s2 in
  let '(fp, s4) := span_digits s3 in
  match (ip ++ fp)%list with
  | [] => None
  | _ :: _ =>
      match s4 with
      | String c s5 =>
          if is_exp_mark c then
            let '(eneg, s6) := take_sign s5 in
            let '(ed, s7) := span_digits s6 in
            match ed with
            | [] => None
            | _ :: _ =>
                let e := digits_value ed in
                Some ({| f_neg := neg; f_int := ip; f_frac := fp;
                         f_exp := if eneg then (- e)%Z else e |}, s7)
            end
          else Some ({| f_neg := neg; f_int := ip; f_frac := fp; f_exp := 0%Z |}, s4)
      | EmptyString =>
          Some ({| f_neg := neg; f_int := ip; f_frac := fp; f_exp := 0%Z |}, s4)
      end
  end.

(** The [float] nearest to [(-1)^neg * m * 10^e] (ties to even). *)
Definition round_decimal (neg : bool) (m e : Z) : spec_float :=
  match m with
  | Z0 => S754_zero neg
  | Zneg _ => S754_nan
  | Zpos _ =>
      match e with
      | Zneg p =>
          let '(q, e', l) :=
            SFdiv_core_binary prec32 emax32 m 0 (Z.pow_pos 10 p) 0 in
          binary_round_aux prec32 emax32 neg q e' l
      | _ => binary_normalize prec32 emax32 (if neg then - (m * 10 ^ e) else m * 10 ^ e)%Z 0 false
      end
  end.

Definition field_value (f : field) : f32 :=
  of_spec
    (round_decimal (f_neg f)
       (digits_value (f_int f ++ f_frac f)%list)
       (f_exp f - Z.of_nat (List.length (f_frac f)))%Z).

(** [iss >> x]: the value and the rest of the stream, or [None] when the
    stream goes into the failed state. *)
Definition extract_float (s : string) : option (f32 * string) :=
  match scan_field (skipws s) with
  | None => None
  | Some (f, rest) =>
      let v := field_value f in
      if is_finite v then Some (v, rest) else None
  end.

(** Line 115: [iss >> x >> y]; the second extraction is not attempted once
    the first has failed, and whatever follows the second field is left
    unread. *)
Definition parse_xy (line : string) : option (f32 * f32) :=
  match extract_float line with
  | None => None
  | Some (x, rest) =>
      match extract_float rest with
      | None => None
      | Some (y, _) => Some (x, y)
      end
  end.

(** ** Formatted insertion of a [float]:
       [std::cout << std::fixed << std::setprecision(8) << lon]

    The value is written as by [printf] with the conversion [%.8f]: a minus
    sign for a negative value, the integer part in decimal, a point and
    eight decimals, the exact value being rounded to the nearest multiple
    of 10^-8 (ties to even).  An infinity is written [inf] and a
    not-a-number [nan], behind a minus sign when the sign bit is set;
    behind [nan] comes, in parentheses, the character sequence the library
    writes for the payload, if it writes one. *)

Definition digit_char (d : Z) : ascii := ascii_of_nat (48 + Z.to_nat d).

(** The [k] low decimal digits of [n], most significant first. *)
Fixpoint fixed_digits (k : nat) (n : Z) : string :=
  match k with
  | O => EmptyString
  | S k' => fixed_digits k' (n / 10) ++ String (digit_char (n mod 10)) EmptyString
  end.

(** The decimal digits of a positive number, most significant first, in
    front of [acc]. *)
Fixpoint pos_digits (fuel : nat) (n : Z) (acc : string) : string :=
  match fuel with
  | O => acc
  | S fuel' =>
      let acc' := String (digit_char (n mod 10)) acc in
      if (n <? 10)%Z then acc' else pos_digits fuel' (n / 10) acc'
  end.

(** A natural number in decimal, without leading zeros. *)
Definition decimal (n : Z) : string :=
  pos_digits (S (Z.to_nat (Z.log2 n))) n EmptyString.

(** [m * 2^e * 10^8] rounded to the nearest integer, ties to even. *)
Definition scaled8 (m : positive) (e : Z) : Z :=
  let n := (Zpos m * 10 ^ 8)%Z in
  match e with
  | Zneg p =>
      let d := Z.pow_pos 2 p in
      let q := (n / d)%Z in
      match (2 * (n mod d) ?= d)%Z with
      | Lt => q
      | Eq => if Z.even q then q else (q + 1)%Z
      | Gt => (q + 1)%Z
      end
  | _ => (n * 2 ^ e)%Z
  end.

Definition sign_string (s : bool) : string := if s then "-" else "".

Definition fixed_of_scaled (s : bool) (n : Z) : string :=
  sign_string s ++ decimal (n / 10 ^ 8) ++ "." ++ fixed_digits 8 (n mod 10 ^ 8).

Definition nan_chars (chars : option string) : string :=
  match chars with
  | Some t => "(" ++ t ++ ")"
  | None => ""
  end.

Definition fixed8 (f : f32) : string :=
  match f with
  | F754_nan s chars => sign_string s ++ "nan" ++ nan_chars chars
  | F754_infinity s => sign_string s ++ "inf"
  | F754_zero s => fixed_of_scaled s 0
  | F754_finite s m e => fixed_of_scaled s (scaled8 m e)
  end.

Definition take_sign_minus (s : string) : bool * string :=
  match s with
  | String c s' => if Ascii.eqb c "-" then (true, s') else (false, s)
  | EmptyString => (false, s)
  end.

(** Recognizer of the fixed-point form: an optional minus sign, at least
    one digit, a point, and exactly eight digits. *)
Definition is_fixed8 (s : string) : bool :=
  let '(_, s1) := take_sign_minus s in
  let '(ip, s2) := span_digits s1 in
  match ip, take_point s2 with
  | _ :: _, (true, s3) =>
      let '(fp, s4) := span_digits s3 in
      (List.length fp =? 8)%nat && (s4 =? "")
  | _, _ => false
  end.

(** ** The process and its environment *)

Definition EXIT_SUCCESS : Z := 0.
Definition EXIT_FAILURE : Z := 1.

(** What the process does, in order. *)
Inductive event :=
| LoadDll (dll_path : string) (loaded : bool)  (* LoadLibraryA(dll_path) *)
| Init (trn_name : string) (init_ret : Z)      (* f_init(trn_name) *)
| Getline (line : option string)               (* std::getline; None: no line left *)
| CallLon (x y lon : f32)                      (* f_xy2lon(x, y) *)
| CallLat (x y lat : f32)                      (* f_xy2lat(x, y) *)
| Cout (line : string)                         (* a line on standard output *)
| Cerr (line : string).                        (* a line on the diagnostic stream *)

(** The lines written to standard output. *)
Fixpoint stdout (evs : list event) : list string :=
  match evs with
  | [] => []
  | Cout l :: evs' => l :: stdout evs'
  | _ :: evs' => stdout evs'
  end.

(** The lines written to the diagnostic stream. *)
Fixpoint stderr (evs : list event) : list string :=
  match evs with
  | [] => []
  | Cerr l :: evs' => l :: stderr evs'
  | _ :: evs' => stderr evs'
  end.

(** The lines obtained from standard input. *)
Fixpoint reads (evs : list event) : list (option string) :=
  match evs with
  | [] => []
  | Getline l :: evs' => l :: reads evs'
  | _ :: evs' => reads evs'
  end.

(** The calls of the two conversion functions. *)
Fixpoint calls (evs : list event) : list event :=
  match evs with
  | [] => []
  | CallLon x y r :: evs' => CallLon x y r :: calls evs'
  | CallLat x y r :: evs' => CallLat x y r :: calls evs'
  | _ :: evs' => calls evs'
  end.

Inductive flow := Continue | Break.

Section Process.

(** The state NaviCon.dll keeps behind its entry points. *)
Variable E : Type.

(** The two function-pointer types: [f_funci] takes a path and returns
    an [int], [f_funcf] takes two [float]s and returns a [float]; a call
    may read and change the state of the module. *)
Definition f_funci := string -> E -> Z * E.
Definition f_funcf := f32 -> f32 -> E -> f32 * E.

(** A loaded module: what [GetProcAddress] finds under the three names,
    and the state of the module right after loading. *)
Record module := {
  NaviConInit : option f_funci;
  XYToLon     : option f_funcf;
  XYToLat     : option f_funcf;
  image       : E
}.

(** The host: the registry value [HKCU\Software\Condor3\InstallDir] as
    [RegGetValueA] delivers it into the 821-byte buffer ([None] when it
    does not return [ERROR_SUCCESS]), and [LoadLibraryA]. *)
Record host := {
  InstallDir   : option string;
  LoadLibraryA : string -> option module
}.

(** The outcome of a run of [main]. *)
Record run := {
  events    : list event;
  exit_code : Z;
  unread    : list string;      (* lines left on standard input *)
  final     : option E          (* state of the module, when loaded *)
}.

Definition dll_name : string := "NaviCon.dll".

(** Lines 74-77 *)
Definition is_trn_path (input1 : string) : bool :=
  negb (Str.is_npos (Str.find input1 ".trn"))
  || negb (Str.is_npos (Str.find_char input1 "\"%char))
  || negb (Str.is_npos (Str.find_char input1 "/"%char)).

(** Lines 78-84 *)
Definition trn_name (root_dir input1 : string) : string :=
  if is_trn_path input1 then input1
  else
    let scenery := input1 in
    root_dir ++ "\Landscapes\" ++ scenery ++ "\" ++ scenery ++ ".trn".

Definition dll_path (root_dir : string) : string :=
  root_dir ++ "\" ++ dll_name.

Definition invalid_input : string := "ERROR: Invalid input format".

Section Loop.

Variables f_xy2lon f_xy2lat : f_funcf.

(** Lines 100-127: the body of the [while] loop, for one line that
    [std::getline] has delivered. *)
Definition body (line : string) (e : E) : flow * list event * E :=
  let line := trim line in
  if line =? "" then (Continue, [], e)
  else if line =? "EXIT" then (Break, [], e)
  else
    match parse_xy line with
    | None => (Continue, [Cout invalid_input], e)
    | Some (x, y) =>
        let '(lon, e1) := f_xy2lon x y e in
        let '(lat, e2) := f_xy2lat x y e1 in
        (Continue,
         [CallLon x y lon; CallLat x y lat;
          Cout (fixed8 lon ++ "," ++ fixed8 lat)],
         e2)
    end.

(** Lines 99-128: [while (std::getline(std::cin, line)) { ... }].
    The result has the events, the lines left unread and the state
    of the module. *)
Fixpoint loop (cin : list string) (e : E) : list event * list string * E :=
  match cin with
  | [] => ([Getline None], [], e)
  | line :: cin' =>
      match body line e with
      | (Break, ev, e1) => (Getline (Some line) :: ev, cin', e1)
      | (Continue, ev, e1) =>
          let '(evs, rest, e2) := loop cin' e1 in
          (Getline (Some line) :: ev ++ evs, rest, e2)
      end
  end%list.

End Loop.

Definition usage : list event :=
  [Cerr "Usage: Condor3XY2LatLon_persistent.exe <scenery_or_trn_path>";
   Cerr "Example: Condor3XY2LatLon_persistent.exe AA3";
   Cerr "Or: Condor3XY2LatLon_persistent.exe C:\path\to\AA3.trn"].

Definition failure (evs : list event) (cin : list string) (e : option E) : run :=
  {| events := evs; exit_code := EXIT_FAILURE; unread := cin; final := e |}.

(** [int main(int argc, char **argv)]: [argv] has the program name and
    the arguments, [argc] is its length; [cin] is standard input. *)
Definition main (argv : list string) (h : host) (cin : list string) : run :=
  if negb (List.length argv =? 2)%nat then failure usage cin None
  else
    match InstallDir h with
    | None =>
        failure
          [Cerr "ERROR: Could not find Condor3 installation directory in registry"]
          cin None
    | Some root_dir =>
        let dll_path := dll_path root_dir in
        match LoadLibraryA h dll_path with
        | None =>
            failure
              [LoadDll dll_path false; Cerr ("ERROR: Could not load " ++ dll_path)]
              cin None
        | Some hGetProcIDDLL =>
            match NaviConInit hGetProcIDDLL,
                  XYToLon hGetProcIDDLL,
                  XYToLat hGetProcIDDLL with
            | Some f_init, Some f_xy2lon, Some f_xy2lat =>
                let input1 := nth 1 argv "" in
                let trn_name := trn_name root_dir input1 in
                let '(init_ret, e) := f_init trn_name (image hGetProcIDDLL) in
                if (init_ret =? 0)%Z then
                  failure
                    [LoadDll dll_path true; Init trn_name init_ret;
                     Cerr ("ERROR: NaviConInit failed for " ++ trn_name)]
                    cin (Some e)
                else
                  let '(evs, rest, e') := loop f_xy2lon f_xy2lat cin e in
                  {| events := [LoadDll dll_path true; Init trn_name init_ret;
                                Cout "READY"] ++ evs;
                     exit_code := EXIT_SUCCESS;
                     unread := rest;
                     final := Some e' |}
            | _, _, _ =>
                failure
                  [LoadDll dll_path true;
                   Cerr "ERROR: Could not get NaviCon.dll function pointers"]
                  cin (Some (image hGetProcIDDLL))
            end
        end
    end.

End Process.

Arguments Build_module {E}.
Arguments Build_host {E}.
Arguments NaviConInit {E}.
Arguments XYToLon {E}.
Arguments XYToLat {E}.
Arguments image {E}.
Arguments InstallDir {E}.
Arguments LoadLibraryA {E}.
Arguments events {E}.
Arguments exit_code {E}.
Arguments unread {E}.
Arguments final {E}.
Arguments body {E}.
Arguments loop {E}.
Arguments main {E}.
Arguments failure {E}.

(** ** Notions used to state the properties of the session *)

(** A line made only of the characters that trimming removes. *)
Fixpoint is_blank (s : string) : bool :=
  match s with
  | EmptyString => true
  | String c s' => Str.contains trim_set c && is_blank s'
  end.

Fixpoint all_digits (s : string) : bool :=
  match s with
  | EmptyString => true
  | String c s' => isdigit c && all_digits s'
  end.

Definition digits_of (s : string) : list Z :=
  map digit_val (list_ascii_of_string s).

(** A character with which a floating-point field, or the white space in
    front of it, can begin. *)
Definition starts_field (c : ascii) : bool :=
  isspace c || isdigit c || Ascii.eqb c "-" || Ascii.eqb c "+" || Ascii.eqb c ".".

(** A character that cannot continue a floating-point field: neither a
    digit, nor a sign, nor a point, nor an exponent mark. *)
Definition ends_field (c : ascii) : bool :=
  negb (isdigit c || Ascii.eqb c "-" || Ascii.eqb c "+" || Ascii.eqb c "."
        || is_exp_mark c).

(** The lines in front of the first line that trims to [EXIT]: the ones
    the loop body runs on without leaving the loop. *)
Fixpoint served (cin : list string) : list string :=
  match cin with
  | [] => []
  | l :: cin' => if trim l =? "EXIT" then [] else l :: served cin'
  end.

(** The output lines of each line of [ls] in turn, the state of the module
    passing from one line to the next. *)
Fixpoint responses {E : Type} (f_xy2lon f_xy2lat : f_funcf E)
    (ls : list string) (e : E) : list (list string) :=
  match ls with
  | [] => []
  | l :: ls' =>
      let '(_, ev, e1) := body f_xy2lon f_xy2lat l e in
      stdout ev :: responses f_xy2lon f_xy2lat ls' e1
  end.

(** The three components of what [loop] returns. *)
Definition trace_of {E : Type} (r : list event * list string * E) : list event :=
  fst (fst r).
Definition rest_of {E : Type} (r : list event * list string * E) : list string :=
  snd (fst r).
Definition state_of {E : Type} (r : list event * list string * E) : E :=
  snd r.

(** No line of [cin] trims to [EXIT]. *)
Definition no_exit (cin : list string) : Prop :=
  Forall (fun l => trim l <> "EXIT") cin.

(** The result of a conversion function does not depend on the state of
    the module. *)
Definition state_independent {E : Type} (f : f_funcf E) : Prop :=
  forall x y e e', fst (f x y e) = fst (f x y e').

(** The white-space separated tokens of a line; [cur] is the token being
    gathered. *)
Fixpoint split_ws (s cur : string) : list string :=
  match s with
  | EmptyString => if cur =? "" then [] else [cur]
  | String c s' =>
      if isspace c
      then if cur =? "" then split_ws s' "" else cur :: split_ws s' ""
      else split_ws s' (cur ++ String c EmptyString)
  end.

Definition tokens (line : string) : list string := split_ws line "".

(** A token that is, as a whole, one floating-point field in range. *)
Definition float_token (t : string) : bool :=
  match extract_float t with
  | Some (_, EmptyString) => true
  | _ => false
  end.

(** A line that consists of exactly two floating-point tokens. *)
Definition two_float_tokens (line : string) : bool :=
  match tokens line with
  | [a; b] => float_token a && float_token b
  | _ => false
  end.

(** The line has [EXIT] somewhere in it. *)
Definition contains_exit (line : string) : bool :=
  negb (Str.is_npos (Str.find line "EXIT")).

(** The characters an output line of the loop body can begin with. *)
Definition response_head (c : ascii) : Prop :=
  c = "E"%char \/ isdigit c = true \/ c = "-"%char \/ c = "i"%char \/ c = "n"%char.

(** The start-up failures: a wrong argument count, no installation
    directory, a library that does not load, an entry point that is
    missing, an initializer that returns 0. *)
Inductive startup_failure {E : Type} (argv : list string) (h : host E) : Prop :=
| wrong_argument_count :
    List.length argv <> 2 -> startup_failure argv h
| install_dir_unresolved :
    InstallDir h = None -> startup_failure argv h
| load_failed root_dir :
    InstallDir h = Some root_dir ->
    LoadLibraryA h (dll_path root_dir) = None ->
    startup_failure argv h
| entry_point_missing root_dir lib :
    InstallDir h = Some root_dir ->
    LoadLibraryA h (dll_path root_dir) = Some lib ->
    NaviConInit lib = None \/ XYToLon lib = None \/ XYToLat lib = None ->
    startup_failure argv h
| initializer_failed root_dir lib f_init :
    InstallDir h = Some root_dir ->
    LoadLibraryA h (dll_path root_dir) = Some lib ->
    NaviConInit lib = Some f_init ->
    fst (f_init (trn_name root_dir (nth 1 argv "")) (image lib)) = 0%Z ->
    startup_failure argv h.

(** The entry points of a library are fixed pure functions: what a call
    returns is [init], [lon] or [lat] of its arguments, whatever the state
    of the library. *)
Definition pure_entry_points {E : Type} (m : module E)
    (init : string -> Z) (lon lat : f32 -> f32 -> f32) : Prop :=
  (forall f, NaviConInit m = Some f -> forall p e, fst (f p e) = init p) /\
  (forall f, XYToLon m = Some f -> forall x y e, fst (f x y e) = lon x y) /\
  (forall f, XYToLat m = Some f -> forall x y e, fst (f x y e) = lat x y).

Definition pure_host {E : Type} (h : host E)
    (init : string -> Z) (lon lat : f32 -> f32 -> f32) : Prop :=
  forall path m, LoadLibraryA h path = Some m -> pure_entry_points m init lon lat.

(** What the start-up arguments resolve to: the terrain path the
    initializer is called with, when the start-up gets as far as calling
    it (one argument, an installation directory, a library with its
    three entry points). *)
Definition resolution {E : Type} (argv : list string) (h : host E)
    : option string :=
  if (List.length argv =? 2)%nat then
    match InstallDir h with
    | Some root_dir =>
        match LoadLibraryA h (dll_path root_dir) with
        | Some lib =>
            match NaviConInit lib, XYToLon lib, XYToLat lib with
            | Some _, Some _, Some _ =>
                Some (trn_name root_dir (nth 1 argv ""))
            | _, _, _ => None
            end
        | None => None
        end
    | None => None
    end
  else None.

(** The answer to one input line when the conversion functions are the
    pure functions [lon] and [lat]. *)
Definition answer (lon lat : f32 -> f32 -> f32) (line : string) : list string :=
  let line := trim line in
  if line =? "" then []
  else if line =? "EXIT" then []
  else
    match parse_xy line with
    | None => [invalid_input]
    | Some (x, y) => [fixed8 (lon x y) ++ "," ++ fixed8 (lat x y)]
    end.

(** Standard output and exit status as the resolution, the pure entry
    points and the input lines decide them. *)
Definition outcome (init : string -> Z) (lon lat : f32 -> f32 -> f32)
    (res : option string) (cin : list string) : list string * Z :=
  match res with
  | Some trn =>
      if (init trn =? 0)%Z then ([], EXIT_FAILURE)
      else ("READY" :: flat_map (answer lon lat) (served cin), EXIT_SUCCESS)
  | None => ([], EXIT_FAILURE)
  end.

(** ** Notions used to state further properties *)

(** The line without its leading characters of [trim_set]. *)
Fixpoint lstrip (s : string) : string :=
  match s with
  | EmptyString => EmptyString
  | String c s' => if Str.contains trim_set c then lstrip s' else s
  end.

(** The line without its trailing characters of [trim_set]. *)
Fixpoint rstrip (s : string) : string :=
  match s with
  | EmptyString => EmptyString
  | String c s' =>
      match rstrip s' with
      | EmptyString =>
          if Str.contains trim_set c then EmptyString else String c EmptyString
      | r => String c r
      end
  end.

Definition first_char (s : string) : option ascii :=
  match s with
  | EmptyString => None
  | String c _ => Some c
  end.

Fixpoint last_char (s : string) : option ascii :=
  match s with
  | EmptyString => None
  | String c EmptyString => Some c
  | String _ s' => last_char s'
  end.

(** A string made of white space only, in the sense of [std::isspace]. *)
Fixpoint all_space (s : string) : bool :=
  match s with
  | EmptyString => true
  | String c s' => isspace c && all_space s'
  end.

(** [needle] occurs in [s]. *)
Definition occurs (needle s : string) : Prop :=
  exists a b, s = a ++ needle ++ b.


(** A list of calls made of pairs: the longitude function, then the
    latitude function on the same two arguments. *)
Fixpoint paired (evs : list event) : Prop :=
  match evs with
  | [] => True
  | CallLon x y _ :: CallLat x' y' _ :: evs' =>
      x' = x /\ y' = y /\ paired evs'
  | _ => False
  end.

(** The paths [LoadLibraryA] was called with, and the paths the
    initializer was called with. *)
Fixpoint loads (evs : list event) : list string :=
  match evs with
  | [] => []
  | LoadDll p _ :: evs' => p :: loads evs'
  | _ :: evs' => loads evs'
  end.

Fixpoint inits (evs : list event) : list string :=
  match evs with
  | [] => []
  | Init p _ :: evs' => p :: inits evs'
  | _ :: evs' => inits evs'
  end.

Definition is_nan (f : f32) : bool :=
  match f with
  | F754_nan _ _ => true
  | _ => false
  end.

(** The characters a [float] that is not a not-a-number is written with:
    digits, the minus sign, the point and the letters of [inf]. *)
Definition fixed_char (c : ascii) : bool :=
  isdigit c || Ascii.eqb c "-" || Ascii.eqb c "." || Ascii.eqb c "i"
  || Ascii.eqb c "n" || Ascii.eqb c "f".

Fixpoint all_fixed_chars (s : string) : bool :=
  match s with
  | EmptyString => true
  | String c s' => fixed_char c && all_fixed_chars s'
  end.

(** What a reader of the output does with a line: cut it at its first
    comma. *)
Fixpoint split_comma (s : string) : option (string * string) :=
  match s with
  | EmptyString => None
  | String c s' =>
      if Ascii.eqb c ","
      then Some (EmptyString, s')
      else match split_comma s' with
           | Some (a, b) => Some (String c a, b)
           | None => None
           end
  end.

(** ** Standard input as a stream of characters

    [std::getline(std::cin, line)] takes the characters up to the next
    new-line character, which it removes from the stream and does not
    store; at the end of the stream it delivers what it has taken, and it
    fails when there was nothing to take.  The result is the line and
    the rest of the stream. *)

Definition newline : ascii := "010".

Fixpoint getline (cin : string) : option (string * string) :=
  match cin with
  | EmptyString => None
  | String c rest =>
      if Ascii.eqb c newline then Some (EmptyString, rest)
      else
        match getline rest with
        | Some (line, rest') => Some (String c line, rest')
        | None => Some (String c EmptyString, EmptyString)
        end
  end.

(** The lines the [while] loop would get from the stream, one [getline]
    at a time; each call shortens the stream, so the length of the
    stream plus one is fuel enough. *)
Fixpoint getlines (fuel : nat) (cin : string) : list string :=
  match fuel with
  | O => []
  | S fuel' =>
      match getline cin with
      | None => []
      | Some (line, rest) => line :: getlines fuel' rest
      end
  end.

Definition cin_lines (cin : string) : list string :=
  getlines (S (String.length cin)) cin.

(** The stream in which each line is followed by a new-line character. *)
Fixpoint stream_of (lines : list string) : string :=
  match lines with
  | [] => EmptyString
  | l :: lines' => l ++ String newline (stream_of lines')
  end.

Fixpoint no_newline (s : string) : bool :=
  match s with
  | EmptyString => true
  | String c s' => negb (Ascii.eqb c newline) && no_newline s'
  end.

(** [main] on standard input given as a stream of characters. *)
Definition main_stream {E : Type} (argv : list string) (h : host E)
    (stdin : string) : run E :=
  main argv h (cin_lines stdin).

(** ** A sample installation

    A library whose state counts the calls made to it, with conversion
    functions that return their first and their second argument. *)

Module Sample.

Definition counting (f : f32 -> f32 -> f32) : f_funcf nat :=
  fun x y n => (f x y, S n).

Definition lon : f_funcf nat := counting (fun x _ => x).
Definition lat : f_funcf nat := counting (fun _ y => y).

Definition init : f_funci nat := fun _ n => (1%Z, n).

Definition navicon : module nat :=
  {| NaviConInit := Some init;
     XYToLon := Some lon;
     XYToLat := Some lat;
     image := 0 |}.

Definition condor : host nat :=
  {| InstallDir := Some "C:\Condor3";
     LoadLibraryA := fun path =>
       if path =? "C:\Condor3\NaviCon.dll" then Some navicon else None |}.

(** The pure functions behind the entry points of [navicon]. *)
Definition pure_init : string -> Z := fun _ => 1%Z.
Definition pure_lon : f32 -> f32 -> f32 := fun x _ => x.
Definition pure_lat : f32 -> f32 -> f32 := fun _ y => y.

(** Another installation, in another directory: a library with the same
    pure functions and no state. *)
Definition stateless : module unit :=
  {| NaviConInit := Some (fun p e => (pure_init p, e));
     XYToLon := Some (fun x y e => (pure_lon x y, e));
     XYToLat := Some (fun x y e => (pure_lat x y, e));
     image := tt |}.

Definition elsewhere : host unit :=
  {| InstallDir := Some "D:\Games\Condor3";
     LoadLibraryA := fun path =>
       if path =? "D:\Games\Condor3\NaviCon.dll" then Some stateless else None |}.

(** An invocation with the path of the terrain file. *)
Definition argv_path : list string :=
  ["Condor3XY2LatLon_persistent.exe"; "C:\Condor3\Landscapes\AA3\AA3.trn"].

(** A library whose longitude function overflows. *)
Definition overflowing : f_funcf nat :=
  counting (fun _ _ => F754_infinity false).

Definition one : f32 := F754_finite false 8388608 (-23).
Definition two : f32 := F754_finite false 8388608 (-22).

(** An invocation with a scenery name, and a session. *)
Definition argv : list string := ["Condor3XY2LatLon_persistent.exe"; "AA3"].
Definition session : list string := ["1 2"; "abc def"; " 1 2 "; " EXIT "; "1 2"].

(** The floats nearest to 807440.44 and 100150.11. *)
Definition x0 : f32 := F754_finite false 12919047 (-4).
Definition y0 : f32 := F754_finite false 12819214 (-7).

End Sample.

(** * Properties *)

Arguments isdigit : simpl never.
Arguments isspace : simpl never.
Arguments digit_char : simpl never.
Arguments digit_val : simpl never.
Arguments decimal : simpl never.
Arguments scaled8 : simpl never.
Arguments fixed_digits : simpl nomatch.

(** ** Digits and the fixed-point form *)

Lemma isdigit_digit_char d : (0 <= d < 10)%Z -> isdigit (digit_char d) = true.
Proof.
  intros H.
  assert (Hd : In d [0; 1; 2; 3; 4; 5; 6; 7; 8; 9]%Z) by (simpl; lia).
  simpl in Hd.
  repeat (destruct Hd as [<- | Hd]; [vm_compute; reflexivity |]).
  contradiction.
Qed.

Lemma isdigit_mod10 n : isdigit (digit_char (n mod 10)) = true.
Proof. apply isdigit_digit_char, Z.mod_pos_bound; lia. Qed.

Lemma all_digits_app a b :
  all_digits (a ++ b) = all_digits a && all_digits b.
Proof.
  induction a as [| c a IH]; cbn; [reflexivity |].
  now rewrite IH, andb_assoc.
Qed.

Lemma length_app a b : String.length (a ++ b) = String.length a + String.length b.
Proof. induction a; cbn; congruence. Qed.

Lemma fixed_digits_ok k : forall n,
  all_digits (fixed_digits k n) = true /\ String.length (fixed_digits k n) = k.
Proof.
  induction k as [| k IH]; intros n; cbn [fixed_digits]; [split; reflexivity |].
  destruct (IH (n / 10)%Z) as [Hd Hl].
  rewrite all_digits_app, length_app, Hd, Hl; cbn [all_digits String.length andb].
  rewrite isdigit_mod10. split; [reflexivity | lia].
Qed.

Lemma pos_digits_ok fuel : forall n acc,
  exists pre, pos_digits fuel n acc = pre ++ acc /\ all_digits pre = true /\
              (fuel <> 0 -> pre <> EmptyString).
Proof.
  induction fuel as [| fuel IH]; intros n acc; cbn.
  - exists EmptyString. repeat split. congruence.
  - destruct (n <? 10)%Z.
    + exists (String (digit_char (n mod 10)) EmptyString); cbn.
      rewrite isdigit_mod10. repeat split. congruence.
    + destruct (IH (n / 10)%Z (String (digit_char (n mod 10)) acc))
        as (pre & Hp & Hd & _).
      exists (pre ++ String (digit_char (n mod 10)) EmptyString).
      rewrite Hp, all_digits_app, Hd; cbn. rewrite isdigit_mod10.
      split; [| split; [reflexivity |]].
      * clear. induction pre; cbn; congruence.
      * intros _. destruct pre; discriminate.
Qed.

Lemma decimal_ok n :
  exists c r, decimal n = String c r /\ isdigit c = true /\ all_digits r = true.
Proof.
  unfold decimal.
  destruct (pos_digits_ok (S (Z.to_nat (Z.log2 n))) n EmptyString)
    as (pre & Hp & Hd & Hne).
  rewrite Hp. destruct pre as [| c r]; [now destruct Hne |].
  exists c, (r ++ EmptyString). cbn in *.
  apply andb_true_iff in Hd as [Hc Hr].
  rewrite all_digits_app, Hr. auto.
Qed.

Lemma span_digits_app a : forall r,
  all_digits a = true ->
  match r with String c _ => isdigit c = false | EmptyString => True end ->
  span_digits (a ++ r) = (digits_of a, r).
Proof.
  induction a as [| c a IH]; intros r Ha Hr; cbn in *.
  - destruct r as [| c r]; [reflexivity |]. cbn. now rewrite Hr.
  - apply andb_true_iff in Ha as [Hc Ha]. rewrite Hc, (IH r Ha Hr).
    reflexivity.
Qed.

Lemma digits_of_length a : List.length (digits_of a) = String.length a.
Proof.
  unfold digits_of. rewrite length_map.
  induction a; cbn; congruence.
Qed.

Lemma span_digits_all a :
  all_digits a = true -> span_digits a = (digits_of a, EmptyString).
Proof.
  induction a as [| c a IH]; cbn; intros Ha; [reflexivity |].
  apply andb_true_iff in Ha as [Hc Ha]. now rewrite Hc, (IH Ha).
Qed.

Lemma is_fixed8_scaled s n : is_fixed8 (fixed_of_scaled s n) = true.
Proof.
  unfold fixed_of_scaled, is_fixed8.
  destruct (decimal_ok (n / 10 ^ 8)) as (c & r & Hdec & Hc & Hr).
  destruct (fixed_digits_ok 8 (n mod 10 ^ 8)) as [Hfd Hfl].
  assert (Hsign : take_sign_minus
            (sign_string s ++ decimal (n / 10 ^ 8) ++ "." ++
             fixed_digits 8 (n mod 10 ^ 8))
          = (s, decimal (n / 10 ^ 8) ++ "." ++ fixed_digits 8 (n mod 10 ^ 8))).
  { destruct s; [reflexivity |].
    unfold sign_string; cbn [append]. 
    rewrite Hdec; cbn [append take_sign_minus].
    destruct (Ascii.eqb_spec c "-") as [-> | _]; [discriminate Hc | reflexivity]. }
  rewrite Hsign.
  rewrite (span_digits_app (decimal (n / 10 ^ 8))); cycle 1.
  { rewrite Hdec; cbn [all_digits]. now rewrite Hc, Hr. }
  { reflexivity. }
  rewrite Hdec at 1. unfold digits_of at 1; cbn [list_ascii_of_string map take_point].
  change (take_point ("." ++ fixed_digits 8 (n mod 10 ^ 8)))
    with (true, fixed_digits 8 (n mod 10 ^ 8)).
  cbv iota. rewrite (span_digits_all _ Hfd).
  rewrite digits_of_length, Hfl. reflexivity.
Qed.

(** A finite [float] is written in the fixed-point form with eight
    decimals. *)
Lemma is_fixed8_finite f : is_finite f = true -> is_fixed8 (fixed8 f) = true.
Proof.
  destruct f; cbn [is_finite fixed8]; intros H; try discriminate; apply is_fixed8_scaled.
Qed.

(** What a [float] is written as begins with a digit, a minus sign, or
    the first letter of [inf] or [nan]. *)
Lemma fixed8_head f :
  exists c r, fixed8 f = String c r /\
    (isdigit c = true \/ c = "-"%char \/ c = "i"%char \/ c = "n"%char).
Proof.
  assert (Hs : forall s n, exists c r, fixed_of_scaled s n = String c r /\
             (isdigit c = true \/ c = "-"%char \/ c = "i"%char \/ c = "n"%char)).
  { intros s n. unfold fixed_of_scaled.
    destruct s; unfold sign_string; cbn [append].
    - do 2 eexists; split; [reflexivity | auto].
    - destruct (decimal_ok (n / 10 ^ 8)) as (c & r & -> & Hc & _).
      cbn [append]. do 2 eexists; split; [reflexivity | auto]. }
  destruct f as [s | s | s chars | s m e]; cbn [fixed8]; auto;
    try destruct s; unfold sign_string; cbn [append];
    do 2 eexists; (split; [reflexivity | auto]).
Qed.

(** ** Trimming *)

Lemma find_first_blank s :
  is_blank s = true -> Str.find_first_not_of s trim_set = Str.npos.
Proof.
  induction s as [| c s IH]; cbn [is_blank Str.find_first_not_of]; intros H;
    [reflexivity |].
  apply andb_true_iff in H as [Hc Hs]. now rewrite Hc, (IH Hs).
Qed.

Lemma find_first_nonblank s :
  is_blank s = false ->
  exists n c r, Str.find_first_not_of s trim_set = Str.pos n /\
                Str.drop n s = String c r /\ Str.contains trim_set c = false.
Proof.
  induction s as [| c s IH]; cbn [is_blank Str.find_first_not_of]; intros H;
    [discriminate |].
  destruct (Str.contains trim_set c) eqn:Hc.
  - destruct (IH H) as (n & d & r & -> & Hd & Hn).
    exists (S n), d, r. auto.
  - exists 0, c, s. auto.
Qed.

Lemma find_last_head c r :
  Str.contains trim_set c = false ->
  exists k, Str.find_last_not_of (String c r) trim_set = Str.pos k.
Proof.
  intros Hc. cbn [Str.find_last_not_of].
  destruct (Str.find_last_not_of r trim_set); rewrite ?Hc; eauto.
Qed.

Lemma trim_blank s : is_blank s = true -> trim s = EmptyString.
Proof.
  intros H. unfold trim. rewrite (find_first_blank s H).
  destruct s; reflexivity.
Qed.

Lemma trim_nonblank s : is_blank s = false -> trim s <> EmptyString.
Proof.
  intros H. unfold trim.
  destruct (find_first_nonblank s H) as (n & c & r & -> & Hd & Hc).
  assert (He : Str.erase s 0 (Str.pos n) = String c r).
  { unfold Str.erase. destruct s; cbn [Str.take append Nat.add]; exact Hd. }
  rewrite He. destruct (find_last_head c r Hc) as [k ->].
  discriminate.
Qed.

Lemma trim_empty_iff s : trim s = EmptyString <-> is_blank s = true.
Proof.
  split; [| apply trim_blank].
  destruct (is_blank s) eqn:H; [reflexivity |].
  intros Ht. now apply trim_nonblank in H.
Qed.

(** ** The four ways through the loop body *)

Section BodyFacts.

Context {E : Type}.
Variables f_xy2lon f_xy2lat : f_funcf E.

Lemma body_empty line e :
  trim line = EmptyString ->
  body f_xy2lon f_xy2lat line e = (Continue, [], e).
Proof. intros H. unfold body. now rewrite H. Qed.

Lemma body_exit line e :
  trim line = "EXIT" ->
  body f_xy2lon f_xy2lat line e = (Break, [], e).
Proof. intros H. unfold body. now rewrite H. Qed.

Lemma body_malformed line e :
  trim line <> EmptyString -> trim line <> "EXIT" ->
  parse_xy (trim line) = None ->
  body f_xy2lon f_xy2lat line e = (Continue, [Cout invalid_input], e).
Proof.
  intros H1 H2 H3. unfold body.
  apply String.eqb_neq in H1, H2. now rewrite H1, H2, H3.
Qed.

Lemma body_convert line e x y :
  parse_xy (trim line) = Some (x, y) ->
  body f_xy2lon f_xy2lat line e =
    (Continue,
     [CallLon x y (fst (f_xy2lon x y e));
      CallLat x y (fst (f_xy2lat x y (snd (f_xy2lon x y e))));
      Cout (fixed8 (fst (f_xy2lon x y e)) ++ "," ++
            fixed8 (fst (f_xy2lat x y (snd (f_xy2lon x y e)))))],
     snd (f_xy2lat x y (snd (f_xy2lon x y e)))).
Proof.
  intros H. unfold body.
  destruct (String.eqb_spec (trim line) "") as [H0 | _];
    [rewrite H0 in H; discriminate |].
  destruct (String.eqb_spec (trim line) "EXIT") as [H0 | _];
    [rewrite H0 in H; discriminate |].
  rewrite H.
  destruct (f_xy2lon x y e) as [lon e1]; cbn [fst snd].
  destruct (f_xy2lat x y e1) as [lat e2]; reflexivity.
Qed.

(** The body leaves the loop only on a line that trims to [EXIT]. *)
Lemma body_flow line e :
  fst (fst (body f_xy2lon f_xy2lat line e)) =
    if trim line =? "EXIT" then Break else Continue.
Proof.
  unfold body.
  destruct (String.eqb_spec (trim line) "") as [-> | _]; [reflexivity |].
  destruct (trim line =? "EXIT"); [reflexivity |].
  destruct (parse_xy (trim line)) as [[x y] |]; [| reflexivity].
  destruct (f_xy2lon x y e) as [lon e1].
  destruct (f_xy2lat x y e1) as [lat e2]; reflexivity.
Qed.

End BodyFacts.

(** ** Projections of the event list *)

Lemma stdout_app a b : stdout (a ++ b) = (stdout a ++ stdout b)%list.
Proof.
  induction a as [| [] a IH]; cbn [stdout app]; rewrite ?IH; reflexivity.
Qed.

Lemma stderr_app a b : stderr (a ++ b) = (stderr a ++ stderr b)%list.
Proof.
  induction a as [| [] a IH]; cbn [stderr app]; rewrite ?IH; reflexivity.
Qed.

Lemma reads_app a b : reads (a ++ b) = (reads a ++ reads b)%list.
Proof.
  induction a as [| [] a IH]; cbn [reads app]; rewrite ?IH; reflexivity.
Qed.

Lemma calls_app a b : calls (a ++ b) = (calls a ++ calls b)%list.
Proof.
  induction a as [| [] a IH]; cbn [calls app]; rewrite ?IH; reflexivity.
Qed.

(** ** The lines in front of the first [EXIT] *)

Lemma served_no_exit cin : no_exit cin -> served cin = cin.
Proof.
  induction 1 as [| l cin Hl _ IH]; cbn [served]; [reflexivity |].
  apply String.eqb_neq in Hl. now rewrite Hl, IH.
Qed.

Lemma served_app_exit pre l post :
  no_exit pre -> trim l = "EXIT" -> served (pre ++ l :: post) = pre.
Proof.
  intros Hpre Hl.
  induction Hpre as [| l' pre Hl' _ IH]; cbn [served app].
  - now rewrite Hl.
  - apply String.eqb_neq in Hl'. now rewrite Hl', IH.
Qed.

Lemma no_exit_served cin : no_exit (served cin).
Proof.
  induction cin as [| l cin IH]; cbn [served]; [constructor |].
  destruct (String.eqb_spec (trim l) "EXIT"); constructor; assumption.
Qed.

(** Standard input is the served lines alone, or the served lines, a line
    that trims to [EXIT], and whatever follows it. *)
Lemma served_split cin :
  (no_exit cin /\ served cin = cin) \/
  (exists l post, cin = (served cin ++ l :: post)%list /\ trim l = "EXIT").
Proof.
  induction cin as [| l cin IH]; cbn [served].
  - left. split; [constructor | reflexivity].
  - destruct (String.eqb_spec (trim l) "EXIT") as [Hl | Hl].
    + right. exists l, cin. auto.
    + destruct IH as [[Hn Hs] | (l' & post & Hc & Hl')].
      * left. split; [constructor; assumption | now rewrite Hs].
      * right. exists l', post. split; [| assumption].
        cbn [app]. now rewrite <- Hc.
Qed.

(** ** The loop *)

Section LoopFacts.

Context {E : Type}.
Variables f_xy2lon f_xy2lat : f_funcf E.

Lemma loop_nil e : loop f_xy2lon f_xy2lat [] e = ([Getline None], [], e).
Proof. reflexivity. Qed.

Lemma loop_break line cin e :
  trim line = "EXIT" ->
  loop f_xy2lon f_xy2lat (line :: cin) e = ([Getline (Some line)], cin, e).
Proof. intros H. cbn [loop]. now rewrite (body_exit _ _ _ _ H). Qed.

Lemma loop_continue line cin e :
  trim line <> "EXIT" ->
  loop f_xy2lon f_xy2lat (line :: cin) e =
    (Getline (Some line) :: snd (fst (body f_xy2lon f_xy2lat line e))
       ++ trace_of (loop f_xy2lon f_xy2lat cin (snd (body f_xy2lon f_xy2lat line e))),
     rest_of (loop f_xy2lon f_xy2lat cin (snd (body f_xy2lon f_xy2lat line e))),
     state_of (loop f_xy2lon f_xy2lat cin (snd (body f_xy2lon f_xy2lat line e))))%list.
Proof.
  intros H. cbn [loop].
  pose proof (body_flow f_xy2lon f_xy2lat line e) as Hf.
  apply String.eqb_neq in H. rewrite H in Hf.
  destruct (body f_xy2lon f_xy2lat line e) as [[fl ev] e1]. cbn [fst snd] in *. subst fl.
  destruct (loop f_xy2lon f_xy2lat cin e1) as [[evs rest] e2]. reflexivity.
Qed.

(** Running the loop on [pre ++ post], when no line of [pre] trims to
    [EXIT], is running it on [pre] up to the point where it would find
    standard input exhausted, and then on [post]. *)
Lemma loop_app pre : no_exit pre -> forall e,
  exists A e1,
    loop f_xy2lon f_xy2lat pre e = ((A ++ [Getline None])%list, [], e1) /\
    forall post,
      loop f_xy2lon f_xy2lat (pre ++ post) e =
        ((A ++ trace_of (loop f_xy2lon f_xy2lat post e1))%list,
         rest_of (loop f_xy2lon f_xy2lat post e1), state_of (loop f_xy2lon f_xy2lat post e1)).
Proof.
  induction 1 as [| l pre Hl _ IH]; intros e.
  - exists [], e. split; [reflexivity |].
    intros post. cbn [app]. now destruct (loop f_xy2lon f_xy2lat post e) as [[B rest] e2].
  - destruct (IH (snd (body f_xy2lon f_xy2lat l e))) as (A & e1 & Hpre & Happ).
    exists (Getline (Some l) :: snd (fst (body f_xy2lon f_xy2lat l e)) ++ A)%list, e1.
    split.
    + rewrite (loop_continue _ _ _ Hl), Hpre.
      unfold trace_of, rest_of, state_of; cbn [fst snd app].
      now rewrite app_assoc.
    + intros post. cbn [app].
      rewrite (loop_continue _ _ _ Hl), Happ.
      unfold trace_of, rest_of, state_of; cbn [fst snd app].
      now rewrite app_assoc.
Qed.

(** The output of the loop is the responses to the served lines. *)
Lemma stdout_loop cin : forall e,
  stdout (trace_of (loop f_xy2lon f_xy2lat cin e)) =
    List.concat (responses f_xy2lon f_xy2lat (served cin) e).
Proof.
  induction cin as [| l cin IH]; intros e; [reflexivity |].
  cbn [served].
  destruct (String.eqb_spec (trim l) "EXIT") as [Hl | Hl].
  - now rewrite (loop_break _ _ _ Hl).
  - rewrite (loop_continue _ _ _ Hl). unfold trace_of at 1; cbn [fst].
    cbn [stdout responses]. rewrite stdout_app, IH.
    destruct (body f_xy2lon f_xy2lat l e) as [[fl ev] e1]. reflexivity.
Qed.

(** The loop reads the served lines and then either the line that
    trims to [EXIT] or the end of standard input. *)
Lemma reads_loop cin : forall e,
  reads (trace_of (loop f_xy2lon f_xy2lat cin e)) =
    (map Some (served cin) ++ [nth_error cin (List.length (served cin))])%list.
Proof.
  induction cin as [| l cin IH]; intros e; [reflexivity |].
  cbn [served].
  destruct (String.eqb_spec (trim l) "EXIT") as [Hl | Hl].
  - now rewrite (loop_break _ _ _ Hl).
  - rewrite (loop_continue _ _ _ Hl). unfold trace_of at 1; cbn [fst].
    cbn [reads map app List.length nth_error]. rewrite reads_app, IH.
    assert (Hb : reads (snd (fst (body f_xy2lon f_xy2lat l e))) = []).
    { unfold body. destruct (trim l =? ""); [reflexivity |].
      destruct (trim l =? "EXIT"); [reflexivity |].
      destruct (parse_xy (trim l)) as [[x y] |]; [| reflexivity].
      destruct (f_xy2lon x y e) as [lon e1].
      destruct (f_xy2lat x y e1) as [lat e2]; reflexivity. }
    now rewrite Hb.
Qed.

(** What the loop leaves unread is what follows the line that trims to
    [EXIT]. *)
Lemma rest_loop cin : forall e,
  rest_of (loop f_xy2lon f_xy2lat cin e) = skipn (S (List.length (served cin))) cin.
Proof.
  induction cin as [| l cin IH]; intros e; [reflexivity |].
  cbn [served].
  destruct (String.eqb_spec (trim l) "EXIT") as [Hl | Hl].
  - now rewrite (loop_break _ _ _ Hl).
  - rewrite (loop_continue _ _ _ Hl). unfold rest_of at 1; cbn [fst snd].
    rewrite IH. reflexivity.
Qed.

End LoopFacts.

(** ** The start-up *)

Section MainFacts.

Context {E : Type}.

(** A run either fails before anything is read or written to standard
    output, or succeeds. *)
Lemma main_failure_shape argv (h : host E) cin :
  exit_code (main argv h cin) = EXIT_SUCCESS \/
  (exit_code (main argv h cin) = EXIT_FAILURE /\
   stdout (events (main argv h cin)) = [] /\
   stderr (events (main argv h cin)) <> [] /\
   reads (events (main argv h cin)) = [] /\
   calls (events (main argv h cin)) = [] /\
   unread (main argv h cin) = cin).
Proof.
  unfold main.
  destruct (negb (List.length argv =? 2)%nat);
    [right; cbn; repeat split; discriminate |].
  destruct (InstallDir h) as [root_dir |];
    [| right; cbn; repeat split; discriminate].
  destruct (LoadLibraryA h (dll_path root_dir)) as [lib |];
    [| right; cbn; repeat split; discriminate].
  destruct (NaviConInit lib) as [f_init |];
    [| right; cbn; repeat split; discriminate].
  destruct (XYToLon lib) as [f_xy2lon |];
    [| right; cbn; repeat split; discriminate].
  destruct (XYToLat lib) as [f_xy2lat |];
    [| right; cbn; repeat split; discriminate].
  destruct (f_init _ _) as [init_ret e].
  destruct (init_ret =? 0)%Z;
    [right; cbn; repeat split; discriminate |].
  destruct (loop _ _ _ _) as [[evs rest] e']. left. reflexivity.
Qed.

(** A run that succeeds has gone through the whole start-up, and then
    runs the loop whatever standard input holds. *)
Lemma main_success argv (h : host E) cin :
  exit_code (main argv h cin) = EXIT_SUCCESS ->
  exists root_dir lib f_init f_xy2lon f_xy2lat,
    List.length argv = 2 /\
    InstallDir h = Some root_dir /\
    LoadLibraryA h (dll_path root_dir) = Some lib /\
    NaviConInit lib = Some f_init /\
    XYToLon lib = Some f_xy2lon /\
    XYToLat lib = Some f_xy2lat /\
    let trn := trn_name root_dir (nth 1 argv "") in
    let init_ret := fst (f_init trn (image lib)) in
    let e := snd (f_init trn (image lib)) in
    init_ret <> 0%Z /\
    forall cin',
      main argv h cin' =
        {| events := [LoadDll (dll_path root_dir) true; Init trn init_ret;
                      Cout "READY"]
                     ++ trace_of (loop f_xy2lon f_xy2lat cin' e);
           exit_code := EXIT_SUCCESS;
           unread := rest_of (loop f_xy2lon f_xy2lat cin' e);
           final := Some (state_of (loop f_xy2lon f_xy2lat cin' e)) |}.
Proof.
  unfold main.
  destruct (List.length argv =? 2)%nat eqn:Hargc; [| discriminate].
  destruct (InstallDir h) as [root_dir |]; [| discriminate].
  destruct (LoadLibraryA h (dll_path root_dir)) as [lib |] eqn:Hload;
    [| discriminate].
  destruct (NaviConInit lib) as [f_init |] eqn:Hi; [| discriminate].
  destruct (XYToLon lib) as [f_xy2lon |] eqn:Hlon; [| discriminate].
  destruct (XYToLat lib) as [f_xy2lat |] eqn:Hlat; [| discriminate].
  cbn [negb].
  destruct (f_init _ _) as [init_ret e] eqn:Hinit.
  destruct (init_ret =? 0)%Z eqn:Hret; [discriminate |].
  intros _.
  exists root_dir, lib, f_init, f_xy2lon, f_xy2lat.
  apply Nat.eqb_eq in Hargc. apply Z.eqb_neq in Hret.
  repeat (split; [assumption || reflexivity |]).
  cbv zeta. rewrite Hinit. cbn [fst snd].
  split; [assumption |].
  intros cin'.
  destruct (loop f_xy2lon f_xy2lat cin' e) as [[evs rest] e'].
  reflexivity.
Qed.

End MainFacts.

(** ** Lines that cannot be converted *)

Lemma parse_head c r : starts_field c = false -> parse_xy (String c r) = None.
Proof.
  unfold starts_field. intros H.
  apply orb_false_iff in H as [H Hpoint].
  apply orb_false_iff in H as [H Hplus].
  apply orb_false_iff in H as [H Hminus].
  apply orb_false_iff in H as [Hspace Hdigit].
  unfold parse_xy, extract_float. cbn [skipws]. rewrite Hspace.
  unfold scan_field. cbn [take_sign]. rewrite Hminus, Hplus.
  cbn [span_digits]. rewrite Hdigit. cbn [take_point]. rewrite Hpoint.
  cbn [span_digits]. rewrite Hdigit. reflexivity.
Qed.

(** ** What the loop body writes *)

Section OutputFacts.

Context {E : Type}.
Variables f_xy2lon f_xy2lat : f_funcf E.

Lemma body_stdout_cases line e :
  stdout (snd (fst (body f_xy2lon f_xy2lat line e))) = [] \/
  (parse_xy (trim line) = None /\
   stdout (snd (fst (body f_xy2lon f_xy2lat line e))) = [invalid_input]) \/
  (exists x y, parse_xy (trim line) = Some (x, y) /\
     stdout (snd (fst (body f_xy2lon f_xy2lat line e))) =
       [fixed8 (fst (f_xy2lon x y e)) ++ "," ++
        fixed8 (fst (f_xy2lat x y (snd (f_xy2lon x y e))))]).
Proof.
  destruct (parse_xy (trim line)) as [[x y] |] eqn:Hp.
  - right; right. exists x, y. split; [reflexivity |].
    now rewrite (body_convert _ _ _ _ _ _ Hp).
  - unfold body. rewrite Hp.
    destruct (trim line =? ""); [left; reflexivity |].
    destruct (trim line =? "EXIT"); [left; reflexivity |].
    right; left. split; reflexivity.
Qed.

Lemma body_stdout_head line e s :
  In s (stdout (snd (fst (body f_xy2lon f_xy2lat line e)))) ->
  exists c r, s = String c r /\ response_head c.
Proof.
  unfold response_head.
  destruct (body_stdout_cases line e)
    as [-> | [[_ ->] | (x & y & _ & ->)]]; cbn [In]; intros H.
  - contradiction.
  - destruct H as [<- | []]. do 2 eexists. split; [reflexivity | auto].
  - destruct H as [<- | []].
    destruct (fixed8_head (fst (f_xy2lon x y e))) as (c & r & -> & Hc).
    cbn [append]. do 2 eexists. split; [reflexivity | tauto].
Qed.

Lemma loop_stdout_head cin : forall e s,
  In s (stdout (trace_of (loop f_xy2lon f_xy2lat cin e))) ->
  exists c r, s = String c r /\ response_head c.
Proof.
  induction cin as [| l cin IH]; intros e s; [intros [] |].
  destruct (String.eqb_spec (trim l) "EXIT") as [Hl | Hl].
  - rewrite (loop_break _ _ _ _ _ Hl). intros [].
  - rewrite (loop_continue _ _ _ _ _ Hl). unfold trace_of at 1; cbn [fst].
    cbn [stdout]. rewrite stdout_app. intros H.
    apply in_app_or in H as [H | H].
    + exact (body_stdout_head _ _ _ H).
    + exact (IH _ _ H).
Qed.

Lemma response_head_not_R : ~ response_head "R".
Proof.
  unfold response_head.
  intros [H | [H | [H | [H | H]]]]; discriminate H.
Qed.

Lemma loop_never_ready cin e :
  ~ In "READY" (stdout (trace_of (loop f_xy2lon f_xy2lat cin e))).
Proof.
  intros H. apply loop_stdout_head in H as (c & r & Heq & Hc).
  injection Heq as <- _. exact (response_head_not_R Hc).
Qed.

End OutputFacts.

(** ** Responses line by line *)

Section ResponseFacts.

Context {E : Type}.
Variables f_xy2lon f_xy2lat : f_funcf E.

(** The response at a position is what the body writes for the line
    at that position, in the state the earlier lines have left. *)
Lemma responses_nth ls : forall e i l,
  nth_error ls i = Some l ->
  exists e_i,
    nth_error (responses f_xy2lon f_xy2lat ls e) i =
      Some (stdout (snd (fst (body f_xy2lon f_xy2lat l e_i)))).
Proof.
  induction ls as [| l0 ls IH]; intros e i l Hi; [now destruct i |].
  cbn [responses].
  destruct (body f_xy2lon f_xy2lat l0 e) as [[fl ev] e1] eqn:Hb.
  destruct i as [| i]; cbn [nth_error] in *.
  - injection Hi as <-. exists e. now rewrite Hb.
  - exact (IH e1 i l Hi).
Qed.

(** No output for a blank line, one line for any other served line. *)
Lemma responses_shape ls : no_exit ls -> forall e,
  Forall2 (fun l r => if is_blank l then r = [] else exists s, r = [s])
    ls (responses f_xy2lon f_xy2lat ls e).
Proof.
  induction 1 as [| l ls Hl _ IH]; intros e; cbn [responses];
    [constructor |].
  destruct (body f_xy2lon f_xy2lat l e) as [[fl ev] e1] eqn:Hb.
  constructor; [| apply IH].
  destruct (is_blank l) eqn:Hblank.
  - apply trim_blank in Hblank.
    rewrite (body_empty _ _ _ _ Hblank) in Hb. now injection Hb as _ <- _.
  - apply trim_nonblank in Hblank.
    destruct (parse_xy (trim l)) as [[x y] |] eqn:Hp.
    + rewrite (body_convert _ _ _ _ _ _ Hp) in Hb.
      injection Hb as _ <- _. eexists; reflexivity.
    + rewrite (body_malformed _ _ _ _ Hblank Hl Hp) in Hb.
      injection Hb as _ <- _. eexists; reflexivity.
Qed.

End ResponseFacts.

(** When every step of the start-up succeeds, the run is the handshake
    followed by the loop. *)
Lemma main_started {E : Type} argv (h : host E) cin
    root_dir lib f_init f_xy2lon f_xy2lat :
  List.length argv = 2 ->
  InstallDir h = Some root_dir ->
  LoadLibraryA h (dll_path root_dir) = Some lib ->
  NaviConInit lib = Some f_init ->
  XYToLon lib = Some f_xy2lon ->
  XYToLat lib = Some f_xy2lat ->
  fst (f_init (trn_name root_dir (nth 1 argv "")) (image lib)) <> 0%Z ->
  let trn := trn_name root_dir (nth 1 argv "") in
  let e := snd (f_init trn (image lib)) in
  main argv h cin =
    {| events := [LoadDll (dll_path root_dir) true;
                  Init trn (fst (f_init trn (image lib))); Cout "READY"]
                 ++ trace_of (loop f_xy2lon f_xy2lat cin e);
       exit_code := EXIT_SUCCESS;
       unread := rest_of (loop f_xy2lon f_xy2lat cin e);
       final := Some (state_of (loop f_xy2lon f_xy2lat cin e)) |}.
Proof.
  intros Hargc Hdir Hload Hi Hlon Hlat Hret. cbv zeta.
  unfold main. rewrite Hargc, Hdir, Hload, Hi, Hlon, Hlat. cbn [Nat.eqb negb].
  destruct (f_init _ _) as [init_ret e]. cbn [fst snd] in *.
  apply Z.eqb_neq in Hret. rewrite Hret.
  now destruct (loop f_xy2lon f_xy2lat cin e) as [[evs rest] e'].
Qed.

(** ** What follows the second float is not looked at *)

Lemma ends_field_plain c :
  ends_field c = true ->
  isdigit c = false /\ Ascii.eqb c "-" = false /\ Ascii.eqb c "+" = false /\
  Ascii.eqb c "." = false /\ is_exp_mark c = false.
Proof.
  unfold ends_field. intros H. apply negb_true_iff in H.
  apply orb_false_iff in H as [H Hexp].
  apply orb_false_iff in H as [H Hpoint].
  apply orb_false_iff in H as [H Hplus].
  apply orb_false_iff in H as [Hdigit Hminus].
  auto.
Qed.

Lemma isspace_ends_field c : isspace c = true -> ends_field c = true.
Proof.
  destruct c as [[] [] [] [] [] [] [] []]; vm_compute; intros H;
    try discriminate H; reflexivity.
Qed.

Section Tolerance.

Variables (c : ascii) (tail : string).
Hypothesis Hc : ends_field c = true.

Lemma skipws_app s :
  skipws s <> EmptyString ->
  skipws (s ++ String c tail) = skipws s ++ String c tail.
Proof.
  induction s as [| d s IH]; cbn [skipws append]; intros H; [now destruct H |].
  destruct (isspace d); [exact (IH H) | reflexivity].
Qed.

Lemma span_digits_tail a :
  span_digits (a ++ String c tail) =
    (fst (span_digits a), snd (span_digits a) ++ String c tail).
Proof.
  destruct (ends_field_plain c Hc) as (Hd & _).
  induction a as [| d a IH]; cbn [span_digits append].
  - now rewrite Hd.
  - destruct (isdigit d); [| reflexivity].
    rewrite IH. now destruct (span_digits a).
Qed.

Lemma take_sign_tail a :
  take_sign (a ++ String c tail) =
    (fst (take_sign a), snd (take_sign a) ++ String c tail).
Proof.
  destruct (ends_field_plain c Hc) as (_ & Hm & Hp & _).
  destruct a as [| d a]; cbn [take_sign append].
  - now rewrite Hm, Hp.
  - destruct (Ascii.eqb d "-"); [reflexivity |].
    destruct (Ascii.eqb d "+"); reflexivity.
Qed.

Lemma take_point_tail a :
  take_point (a ++ String c tail) =
    (fst (take_point a), snd (take_point a) ++ String c tail).
Proof.
  destruct (ends_field_plain c Hc) as (_ & _ & _ & Hp & _).
  destruct a as [| d a]; cbn [take_point append].
  - now rewrite Hp.
  - destruct (Ascii.eqb d "."); reflexivity.
Qed.

Lemma scan_field_tail a f rest :
  scan_field a = Some (f, rest) ->
  scan_field (a ++ String c tail) = Some (f, rest ++ String c tail).
Proof.
  destruct (ends_field_plain c Hc) as (_ & _ & _ & _ & He).
  unfold scan_field.
  rewrite take_sign_tail. destruct (take_sign a) as [neg s1]; cbn [fst snd].
  rewrite span_digits_tail. destruct (span_digits s1) as [ip s2]; cbn [fst snd].
  rewrite take_point_tail. destruct (take_point s2) as [pt s3]; cbn [fst snd].
  rewrite span_digits_tail. destruct (span_digits s3) as [fp s4]; cbn [fst snd].
  destruct (ip ++ fp)%list; [discriminate |].
  destruct s4 as [| d s5]; cbn [append].
  - rewrite He. now intros [= <- <-].
  - destruct (is_exp_mark d).
    + rewrite take_sign_tail. destruct (take_sign s5) as [eneg s6]; cbn [fst snd].
      rewrite span_digits_tail. destruct (span_digits s6) as [ed s7]; cbn [fst snd].
      destruct ed; [discriminate |]. now intros [= <- <-].
    + now intros [= <- <-].
Qed.

Lemma extract_float_tail s v rest :
  extract_float s = Some (v, rest) ->
  extract_float (s ++ String c tail) = Some (v, rest ++ String c tail).
Proof.
  unfold extract_float. intros H.
  assert (Hs : skipws s <> EmptyString).
  { intros Hs. rewrite Hs in H. discriminate H. }
  rewrite (skipws_app s Hs).
  destruct (scan_field (skipws s)) as [[f r] |] eqn:Hscan; [| discriminate].
  rewrite (scan_field_tail _ _ _ Hscan).
  destruct (is_finite (field_value f)); [| discriminate].
  now injection H as <- <-.
Qed.

(** A line from which two floats are extracted gives the same two floats
    when it is continued by a character that cannot continue a number and
    anything else. *)
Lemma parse_xy_tail s x y :
  parse_xy s = Some (x, y) -> parse_xy (s ++ String c tail) = Some (x, y).
Proof.
  unfold parse_xy.
  destruct (extract_float s) as [[x' r1] |] eqn:H1; [| discriminate].
  rewrite (extract_float_tail _ _ _ H1).
  destruct (extract_float r1) as [[y' r2] |] eqn:H2; [| discriminate].
  now rewrite (extract_float_tail _ _ _ H2).
Qed.

End Tolerance.

Lemma body_tail {E : Type} (f_xy2lon f_xy2lat : f_funcf E) line line' c tail e x y :
  ends_field c = true ->
  parse_xy (trim line) = Some (x, y) ->
  trim line' = trim line ++ String c tail ->
  body f_xy2lon f_xy2lat line' e = body f_xy2lon f_xy2lat line e.
Proof.
  intros Hc Hp Ht.
  rewrite (body_convert _ _ line e x y Hp).
  apply body_convert. rewrite Ht. now apply parse_xy_tail.
Qed.

(** * The claims *)

(** C1 (as amended).  A line whose trimmed content is neither empty nor
    [EXIT] and from which two floats [x] and [y] are extracted makes the
    loop body write exactly one line, [lon] and [lat] separated by a comma,
    where [lon] and [lat] are the results of the two conversion functions
    on [(x, y)], and the loop goes on.  Each of the two fields has the
    fixed-point form with exactly eight decimals whenever the result is a
    finite float. *)
Theorem C1_convert_line {E : Type} (f_xy2lon f_xy2lat : f_funcf E) line e x y :
  trim line <> "" -> trim line <> "EXIT" ->
  parse_xy (trim line) = Some (x, y) ->
  let lon := fst (f_xy2lon x y e) in
  let lat := fst (f_xy2lat x y (snd (f_xy2lon x y e))) in
  fst (fst (body f_xy2lon f_xy2lat line e)) = Continue /\
  stdout (snd (fst (body f_xy2lon f_xy2lat line e))) =
    [fixed8 lon ++ "," ++ fixed8 lat] /\
  (is_finite lon = true -> is_fixed8 (fixed8 lon) = true) /\
  (is_finite lat = true -> is_fixed8 (fixed8 lat) = true).
Proof.
  intros _ _ Hp. cbv zeta. rewrite (body_convert _ _ _ _ _ _ Hp).
  repeat split; apply is_fixed8_finite.
Qed.

(** C1 on the documented request [807440.44 100150.11], surrounded by blanks. *)
Lemma C1_convert_line_witness :
  trim " 807440.44 100150.11 " <> "" /\
  trim " 807440.44 100150.11 " <> "EXIT" /\
  parse_xy (trim " 807440.44 100150.11 ") = Some (Sample.x0, Sample.y0) /\
  fst (fst (body Sample.lon Sample.lat " 807440.44 100150.11 " 0)) = Continue /\
  stdout (snd (fst (body Sample.lon Sample.lat " 807440.44 100150.11 " 0))) =
    ["807440.43750000,100150.10937500"] /\
  (is_finite Sample.x0 = true -> is_fixed8 "807440.43750000" = true) /\
  (is_finite Sample.y0 = true -> is_fixed8 "100150.10937500" = true).
Proof.
  assert (H1 : trim " 807440.44 100150.11 " <> "")
    by (vm_compute; discriminate).
  assert (H2 : trim " 807440.44 100150.11 " <> "EXIT")
    by (vm_compute; discriminate).
  assert (H3 : parse_xy (trim " 807440.44 100150.11 ")
               = Some (Sample.x0, Sample.y0))
    by (vm_compute; reflexivity).
  exact (conj H1 (conj H2 (conj H3
           (C1_convert_line Sample.lon Sample.lat
              " 807440.44 100150.11 " 0 Sample.x0 Sample.y0 H1 H2 H3)))).
Defined.

(** C1 fails as stated: with a longitude function that returns an
    infinity, the line [1 2] is answered by [inf,2.00000000], whose first
    field is not in fixed-point form. *)
Lemma C1_counterexample :
  trim "1 2" <> "" /\ trim "1 2" <> "EXIT" /\
  parse_xy (trim "1 2") = Some (Sample.one, Sample.two) /\
  body Sample.overflowing Sample.lat "1 2" 0 =
    (Continue,
     [CallLon Sample.one Sample.two (F754_infinity false);
      CallLat Sample.one Sample.two Sample.two;
      Cout "inf,2.00000000"], 2) /\
  is_fixed8 (fixed8 (fst (Sample.overflowing Sample.one Sample.two 0))) = false.
Proof.
  repeat split; try (vm_compute; discriminate); vm_compute; reflexivity.
Qed.

(** C2 (as amended).  On a line whose trimmed content is neither empty
    nor [EXIT], the loop goes on, and the body writes the single line
    [ERROR: Invalid input format] exactly when two floats cannot be
    extracted from the front of the line; in that case it does nothing
    else.  What follows the second float plays no part: a line that
    continues a converted line by a character that cannot continue a
    number (white space, for one) and anything else is answered like the
    converted line. *)
Theorem C2_malformed_line {E : Type} (f_xy2lon f_xy2lat : f_funcf E) line e :
  trim line <> "" -> trim line <> "EXIT" ->
  fst (fst (body f_xy2lon f_xy2lat line e)) = Continue /\
  (stdout (snd (fst (body f_xy2lon f_xy2lat line e))) = [invalid_input]
   <-> parse_xy (trim line) = None) /\
  (parse_xy (trim line) = None ->
   body f_xy2lon f_xy2lat line e = (Continue, [Cout invalid_input], e)) /\
  (forall line' c tail x y,
     parse_xy (trim line) = Some (x, y) ->
     ends_field c = true ->
     trim line' = trim line ++ String c tail ->
     body f_xy2lon f_xy2lat line' e = body f_xy2lon f_xy2lat line e).
Proof.
  intros Hne Hex. split; [| split; [| split]]; cycle 3.
  { intros line' c tail x y Hp Hc Ht. exact (body_tail _ _ _ _ _ _ _ _ _ Hc Hp Ht). }
  - rewrite body_flow. apply String.eqb_neq in Hex. now rewrite Hex.
  - split.
    + destruct (body_stdout_cases f_xy2lon f_xy2lat line e)
        as [-> | [[Hp _] | (x & y & _ & ->)]];
        [discriminate | auto |].
      intros H. exfalso. injection H as H.
      destruct (fixed8_head (fst (f_xy2lon x y e))) as (c & r & Hc & Hh).
      rewrite Hc in H. injection H as -> _.
      destruct Hh as [Hh | [Hh | [Hh | Hh]]]; discriminate Hh.
    + intros Hp. now rewrite (body_malformed _ _ _ _ Hne Hex Hp).
  - apply body_malformed; assumption.
Qed.

(** C2 on the line [abc def]. *)
Lemma C2_malformed_line_witness :
  trim "abc def" <> "" /\ trim "abc def" <> "EXIT" /\
  fst (fst (body Sample.lon Sample.lat "abc def" 0)) = Continue /\
  (stdout (snd (fst (body Sample.lon Sample.lat "abc def" 0))) = [invalid_input]
   <-> parse_xy (trim "abc def") = None) /\
  (parse_xy (trim "abc def") = None ->
   body Sample.lon Sample.lat "abc def" 0 = (Continue, [Cout invalid_input], 0)) /\
  (forall line' c tail x y,
     parse_xy (trim "abc def") = Some (x, y) ->
     ends_field c = true ->
     trim line' = trim "abc def" ++ String c tail ->
     body Sample.lon Sample.lat line' 0 = body Sample.lon Sample.lat "abc def" 0).
Proof.
  assert (H1 : trim "abc def" <> "") by (vm_compute; discriminate).
  assert (H2 : trim "abc def" <> "EXIT") by (vm_compute; discriminate).
  exact (conj H1 (conj H2
           (C2_malformed_line Sample.lon Sample.lat "abc def" 0 H1 H2))).
Defined.

(** C2 fails as stated: the line [1 2 3] has three tokens, and is
    answered by a conversion line, not by an error line. *)
Lemma C2_counterexample :
  trim "1 2 3" <> "" /\ trim "1 2 3" <> "EXIT" /\
  tokens "1 2 3" = ["1"; "2"; "3"] /\
  two_float_tokens "1 2 3" = false /\
  body Sample.lon Sample.lat "1 2 3" 0 =
    (Continue,
     [CallLon Sample.one Sample.two Sample.one;
      CallLat Sample.one Sample.two Sample.two;
      Cout "1.00000000,2.00000000"], 2).
Proof.
  repeat split; try (vm_compute; discriminate); vm_compute; reflexivity.
Qed.

(** C9 (as amended).  A line whose trimmed content is not exactly [EXIT]
    never leaves the loop.  When it is not empty and two floats cannot be
    extracted from its front, the body writes the single line
    [ERROR: Invalid input format]; this is the case of every line that
    begins with a character other than white space, a digit, a sign or a
    point, and so of [exit], [Exit] and [EXIT now]; the line [1 2 EXIT] is
    answered like the line [1 2]. *)
Theorem C9_only_exact_exit {E : Type} (f_xy2lon f_xy2lat : f_funcf E) line e :
  trim line <> "EXIT" ->
  fst (fst (body f_xy2lon f_xy2lat line e)) = Continue /\
  (trim line <> "" -> parse_xy (trim line) = None ->
   body f_xy2lon f_xy2lat line e = (Continue, [Cout invalid_input], e)) /\
  (forall c r, trim line = String c r -> starts_field c = false ->
   body f_xy2lon f_xy2lat line e = (Continue, [Cout invalid_input], e)) /\
  Forall (fun l => body f_xy2lon f_xy2lat l e = (Continue, [Cout invalid_input], e))
    ["exit"; "Exit"; "EXIT now"] /\
  body f_xy2lon f_xy2lat "1 2 EXIT" e = body f_xy2lon f_xy2lat "1 2" e.
Proof.
  intros Hex. split; [| split; [| split; [| split]]]; cycle 4.
  { apply (body_tail _ _ "1 2" "1 2 EXIT" " "%char "EXIT" e Sample.one Sample.two);
      vm_compute; reflexivity. }
  - rewrite body_flow. apply String.eqb_neq in Hex. now rewrite Hex.
  - intros Hne Hp. apply body_malformed; assumption.
  - intros c r Ht Hc. apply body_malformed; [| assumption |].
    + rewrite Ht. discriminate.
    + rewrite Ht. now apply parse_head.
  - repeat constructor.
Qed.

(** C9 on the line [EXIT now]. *)
Lemma C9_only_exact_exit_witness :
  trim "EXIT now" <> "EXIT" /\
  fst (fst (body Sample.lon Sample.lat "EXIT now" 0)) = Continue /\
  (trim "EXIT now" <> "" -> parse_xy (trim "EXIT now") = None ->
   body Sample.lon Sample.lat "EXIT now" 0 = (Continue, [Cout invalid_input], 0)) /\
  (forall c r, trim "EXIT now" = String c r -> starts_field c = false ->
   body Sample.lon Sample.lat "EXIT now" 0 = (Continue, [Cout invalid_input], 0)) /\
  Forall (fun l => body Sample.lon Sample.lat l 0 = (Continue, [Cout invalid_input], 0))
    ["exit"; "Exit"; "EXIT now"] /\
  body Sample.lon Sample.lat "1 2 EXIT" 0 = body Sample.lon Sample.lat "1 2" 0.
Proof.
  assert (H1 : trim "EXIT now" <> "EXIT") by (vm_compute; discriminate).
  exact (conj H1 (C9_only_exact_exit Sample.lon Sample.lat "EXIT now" 0 H1)).
Defined.

(** C9 fails as stated: the line [1 2 EXIT] contains [EXIT] and is not
    equal to it, and is answered by a conversion line, not by an error
    line. *)
Lemma C9_counterexample :
  contains_exit (trim "1 2 EXIT") = true /\ trim "1 2 EXIT" <> "EXIT" /\
  two_float_tokens (trim "1 2 EXIT") = false /\
  body Sample.lon Sample.lat "1 2 EXIT" 0 =
    (Continue,
     [CallLon Sample.one Sample.two Sample.one;
      CallLat Sample.one Sample.two Sample.two;
      Cout "1.00000000,2.00000000"], 2).
Proof.
  repeat split; try (vm_compute; discriminate); vm_compute; reflexivity.
Qed.

(** C3.  On every start-up failure (wrong argument count, installation
    directory not found, library not loaded, entry point missing,
    initializer returning 0) the process exits with a non-zero status
    after writing a diagnostic, without writing anything, [READY]
    included, to standard output, without reading standard input and
    without calling a conversion function. *)
Theorem C3_startup_failure {E : Type} argv (h : host E) cin :
  startup_failure argv h ->
  exit_code (main argv h cin) <> 0%Z /\
  stderr (events (main argv h cin)) <> [] /\
  stdout (events (main argv h cin)) = [] /\
  ~ In "READY" (stdout (events (main argv h cin))) /\
  reads (events (main argv h cin)) = [] /\
  calls (events (main argv h cin)) = [] /\
  unread (main argv h cin) = cin.
Proof.
  intros Hfail.
  destruct (main_failure_shape argv h cin)
    as [Hok | (Hcode & Hout & Herr & Hreads & Hcalls & Hun)].
  - exfalso.
    destruct (main_success argv h cin Hok)
      as (root & lib & f_init & f_lon & f_lat &
          Hargc & Hdir & Hload & Hi & Hlon & Hlat & Hret & _).
    destruct Hfail as [H | H | r H H' | r l H H' H'' | r l f H H' H'' H'''].
    + contradiction.
    + congruence.
    + congruence.
    + assert (r = root) by congruence; subst r.
      assert (l = lib) by congruence; subst l.
      destruct H'' as [H'' | [H'' | H'']]; congruence.
    + assert (r = root) by congruence; subst r.
      assert (l = lib) by congruence; subst l.
      assert (f = f_init) by congruence; subst f.
      contradiction.
  - rewrite Hcode, Hout. repeat split; try assumption; try discriminate.
    intros [].
Qed.

(** C3 on an invocation without argument. *)
Lemma C3_startup_failure_witness :
  startup_failure ["Condor3XY2LatLon_persistent.exe"] Sample.condor /\
  exit_code (main ["Condor3XY2LatLon_persistent.exe"] Sample.condor ["1 2"]) <> 0%Z /\
  stderr (events (main ["Condor3XY2LatLon_persistent.exe"] Sample.condor ["1 2"])) <> [] /\
  stdout (events (main ["Condor3XY2LatLon_persistent.exe"] Sample.condor ["1 2"])) = [] /\
  ~ In "READY"
      (stdout (events (main ["Condor3XY2LatLon_persistent.exe"] Sample.condor ["1 2"]))) /\
  reads (events (main ["Condor3XY2LatLon_persistent.exe"] Sample.condor ["1 2"])) = [] /\
  calls (events (main ["Condor3XY2LatLon_persistent.exe"] Sample.condor ["1 2"])) = [] /\
  unread (main ["Condor3XY2LatLon_persistent.exe"] Sample.condor ["1 2"]) = ["1 2"].
Proof.
  assert (H : startup_failure ["Condor3XY2LatLon_persistent.exe"] Sample.condor)
    by (apply wrong_argument_count; simpl; lia).
  exact (conj H (C3_startup_failure _ Sample.condor ["1 2"] H)).
Defined.

(** C4.  A run that has started ends with exit status success whatever
    standard input holds, and its loop ends in one of two ways: standard
    input is exhausted, every line having been read; or a line that trims
    to [EXIT] is read, in which case nothing is written for that line,
    the output and the conversion calls are those of the lines in front of
    it, and the lines behind it are left unread. *)
Theorem C4_two_ways_to_end {E : Type} argv (h : host E) cin :
  exit_code (main argv h cin) = EXIT_SUCCESS ->
  (forall cin', exit_code (main argv h cin') = EXIT_SUCCESS) /\
  ((no_exit cin /\
    reads (events (main argv h cin)) = (map Some cin ++ [None])%list /\
    unread (main argv h cin) = [])
   \/
   (exists pre l post,
      cin = (pre ++ l :: post)%list /\ no_exit pre /\ trim l = "EXIT" /\
      reads (events (main argv h cin)) = (map Some pre ++ [Some l])%list /\
      stdout (events (main argv h cin)) = stdout (events (main argv h pre)) /\
      calls (events (main argv h cin)) = calls (events (main argv h pre)) /\
      unread (main argv h cin) = post)).
Proof.
  intros Hok.
  destruct (main_success argv h cin Hok)
    as (root & lib & f_init & f_lon & f_lat & _ & _ & _ & _ & _ & _ & _ & Hmain).
  cbv zeta in Hmain.
  set (e := snd (f_init (trn_name root (nth 1 argv "")) (image lib))) in *.
  split; [intros cin'; now rewrite Hmain |].
  destruct (served_split cin) as [[Hno Hs] | (l & post & Hcin & Hl)].
  - left. split; [assumption |]. rewrite Hmain; cbn [events unread app reads].
    rewrite reads_loop, rest_loop, Hs.
    rewrite (proj2 (nth_error_None cin (List.length cin)) (le_n _)).
    split; [reflexivity |].
    apply skipn_all2. lia.
  - pose proof (no_exit_served cin) as Hno.
    remember (served cin) as pre eqn:Heq. clear Heq. subst cin.
    right. exists pre, l, post.
    split; [reflexivity |]. split; [assumption |]. split; [assumption |].
    rewrite (Hmain (pre ++ l :: post)%list), (Hmain pre); cbn [events unread].
    destruct (loop_app f_lon f_lat pre Hno e) as (A & e1 & Hpre & Happ).
    rewrite Happ, Hpre, (loop_break _ _ _ _ _ Hl).
    unfold trace_of, rest_of; cbn [fst snd].
    rewrite !stdout_app, !calls_app, !reads_app.
    cbn [stdout calls reads app].
    rewrite !app_nil_r.
    assert (HA : reads A = map Some pre).
    { pose proof (reads_loop f_lon f_lat pre e) as Hr.
      rewrite Hpre in Hr. unfold trace_of in Hr; cbn [fst] in Hr.
      rewrite reads_app, (served_no_exit _ Hno) in Hr. cbn [reads] in Hr.
      apply app_inj_tail in Hr. tauto. }
    rewrite HA. repeat split; reflexivity.
Qed.

(** C4 on the sample session, which has a line [EXIT] followed by a request. *)
Lemma C4_two_ways_to_end_witness :
  exit_code (main Sample.argv Sample.condor Sample.session) = EXIT_SUCCESS /\
  (forall cin', exit_code (main Sample.argv Sample.condor cin') = EXIT_SUCCESS) /\
  ((no_exit Sample.session /\
    reads (events (main Sample.argv Sample.condor Sample.session)) =
      (map Some Sample.session ++ [None])%list /\
    unread (main Sample.argv Sample.condor Sample.session) = [])
   \/
   (exists pre l post,
      Sample.session = (pre ++ l :: post)%list /\ no_exit pre /\ trim l = "EXIT" /\
      reads (events (main Sample.argv Sample.condor Sample.session)) =
        (map Some pre ++ [Some l])%list /\
      stdout (events (main Sample.argv Sample.condor Sample.session)) =
        stdout (events (main Sample.argv Sample.condor pre)) /\
      calls (events (main Sample.argv Sample.condor Sample.session)) =
        calls (events (main Sample.argv Sample.condor pre)) /\
      unread (main Sample.argv Sample.condor Sample.session) = post)).
Proof.
  assert (H : exit_code (main Sample.argv Sample.condor Sample.session)
              = EXIT_SUCCESS) by (vm_compute; reflexivity).
  exact (conj H (C4_two_ways_to_end Sample.argv Sample.condor Sample.session H)).
Defined.

(** C5.  In a run that ends with success, [READY] is written to standard
    output exactly once: the events begin with the loading of the
    library, the call of the initializer, which returns a non-zero value,
    and the line [READY]; nothing is read before it, and no later output
    line is [READY]. *)
Theorem C5_ready_once {E : Type} argv (h : host E) cin :
  exit_code (main argv h cin) = EXIT_SUCCESS ->
  exists dll trn init_ret evs,
    events (main argv h cin) =
      ([LoadDll dll true; Init trn init_ret; Cout "READY"] ++ evs)%list /\
    init_ret <> 0%Z /\
    reads [LoadDll dll true; Init trn init_ret; Cout "READY"] = [] /\
    ~ In "READY" (stdout evs) /\
    count_occ string_dec (stdout (events (main argv h cin))) "READY" = 1.
Proof.
  intros Hok.
  destruct (main_success argv h cin Hok)
    as (root & lib & f_init & f_lon & f_lat & _ & _ & _ & _ & _ & _ & Hret & Hmain).
  cbv zeta in Hmain, Hret.
  do 4 eexists. rewrite (Hmain cin); cbn [events].
  split; [reflexivity |]. split; [exact Hret |]. split; [reflexivity |].
  pose proof (loop_never_ready f_lon f_lat cin
                (snd (f_init (trn_name root (nth 1 argv "")) (image lib)))) as Hnever.
  split; [exact Hnever |].
  cbn [app stdout count_occ].
  destruct (string_dec "READY" "READY") as [_ | Hne]; [| now destruct Hne].
  f_equal. now apply count_occ_not_In.
Qed.

(** C5 on the sample session. *)
Lemma C5_ready_once_witness :
  exit_code (main Sample.argv Sample.condor Sample.session) = EXIT_SUCCESS /\
  exists dll trn init_ret evs,
    events (main Sample.argv Sample.condor Sample.session) =
      ([LoadDll dll true; Init trn init_ret; Cout "READY"] ++ evs)%list /\
    init_ret <> 0%Z /\
    reads [LoadDll dll true; Init trn init_ret; Cout "READY"] = [] /\
    ~ In "READY" (stdout evs) /\
    count_occ string_dec
      (stdout (events (main Sample.argv Sample.condor Sample.session))) "READY" = 1.
Proof.
  assert (H : exit_code (main Sample.argv Sample.condor Sample.session)
              = EXIT_SUCCESS) by (vm_compute; reflexivity).
  exact (conj H (C5_ready_once Sample.argv Sample.condor Sample.session H)).
Defined.

(** C6.  In a run whose start-up succeeds, the lines on standard output
    are [READY] followed by the responses to the served lines (those in
    front of the first line that trims to [EXIT]) in input order, where
    the response to a blank line is empty and the response to any other
    served line is exactly one line. *)
Theorem C6_responses_in_order {E : Type} argv (h : host E) cin
    root_dir lib f_init f_xy2lon f_xy2lat :
  List.length argv = 2 ->
  InstallDir h = Some root_dir ->
  LoadLibraryA h (dll_path root_dir) = Some lib ->
  NaviConInit lib = Some f_init ->
  XYToLon lib = Some f_xy2lon ->
  XYToLat lib = Some f_xy2lat ->
  fst (f_init (trn_name root_dir (nth 1 argv "")) (image lib)) <> 0%Z ->
  let e := snd (f_init (trn_name root_dir (nth 1 argv "")) (image lib)) in
  stdout (events (main argv h cin)) =
    "READY" :: List.concat (responses f_xy2lon f_xy2lat (served cin) e) /\
  Forall2 (fun l r => if is_blank l then r = [] else exists s, r = [s])
    (served cin) (responses f_xy2lon f_xy2lat (served cin) e).
Proof.
  intros Hargc Hdir Hload Hi Hlon Hlat Hret e.
  rewrite (main_started argv h cin _ _ _ _ _ Hargc Hdir Hload Hi Hlon Hlat Hret).
  cbn [events app stdout]. split.
  - f_equal. apply stdout_loop.
  - apply responses_shape, no_exit_served.
Qed.

(** C6 on the sample installation and session. *)
Lemma C6_responses_in_order_witness :
  List.length Sample.argv = 2 /\
  InstallDir Sample.condor = Some "C:\Condor3" /\
  LoadLibraryA Sample.condor (dll_path "C:\Condor3") = Some Sample.navicon /\
  NaviConInit Sample.navicon = Some Sample.init /\
  XYToLon Sample.navicon = Some Sample.lon /\
  XYToLat Sample.navicon = Some Sample.lat /\
  fst (Sample.init (trn_name "C:\Condor3" (nth 1 Sample.argv ""))
         (image Sample.navicon)) <> 0%Z /\
  stdout (events (main Sample.argv Sample.condor Sample.session)) =
    "READY" :: List.concat
      (responses Sample.lon Sample.lat (served Sample.session)
         (snd (Sample.init (trn_name "C:\Condor3" (nth 1 Sample.argv ""))
                 (image Sample.navicon)))) /\
  Forall2 (fun l r => if is_blank l then r = [] else exists s, r = [s])
    (served Sample.session)
    (responses Sample.lon Sample.lat (served Sample.session)
       (snd (Sample.init (trn_name "C:\Condor3" (nth 1 Sample.argv ""))
               (image Sample.navicon)))).
Proof.
  assert (H1 : List.length Sample.argv = 2) by reflexivity.
  assert (H2 : InstallDir Sample.condor = Some "C:\Condor3") by reflexivity.
  assert (H3 : LoadLibraryA Sample.condor (dll_path "C:\Condor3")
               = Some Sample.navicon) by (vm_compute; reflexivity).
  assert (H4 : NaviConInit Sample.navicon = Some Sample.init) by reflexivity.
  assert (H5 : XYToLon Sample.navicon = Some Sample.lon) by reflexivity.
  assert (H6 : XYToLat Sample.navicon = Some Sample.lat) by reflexivity.
  assert (H7 : fst (Sample.init (trn_name "C:\Condor3" (nth 1 Sample.argv ""))
                      (image Sample.navicon)) <> 0%Z)
    by (vm_compute; discriminate).
  exact (conj H1 (conj H2 (conj H3 (conj H4 (conj H5 (conj H6 (conj H7
           (C6_responses_in_order Sample.argv Sample.condor Sample.session
              "C:\Condor3" Sample.navicon Sample.init Sample.lon Sample.lat
              H1 H2 H3 H4 H5 H6 H7)))))))).
Defined.

(** C7.  When the results of the two conversion functions do not depend
    on the state of the library, any two served lines from which the same
    pair [(x, y)] is extracted are answered by the same single line,
    wherever they stand in the input and whatever stands between them. *)
Theorem C7_same_request_same_line {E : Type} (f_xy2lon f_xy2lat : f_funcf E)
    cin e i j li lj x y :
  state_independent f_xy2lon -> state_independent f_xy2lat ->
  nth_error (served cin) i = Some li ->
  nth_error (served cin) j = Some lj ->
  parse_xy (trim li) = Some (x, y) ->
  parse_xy (trim lj) = Some (x, y) ->
  exists s,
    s = fixed8 (fst (f_xy2lon x y e)) ++ "," ++ fixed8 (fst (f_xy2lat x y e)) /\
    nth_error (responses f_xy2lon f_xy2lat (served cin) e) i = Some [s] /\
    nth_error (responses f_xy2lon f_xy2lat (served cin) e) j = Some [s].
Proof.
  intros Hlon Hlat Hi Hj Hpi Hpj.
  eexists. split; [reflexivity |].
  assert (Hline : forall l e', parse_xy (trim l) = Some (x, y) ->
            stdout (snd (fst (body f_xy2lon f_xy2lat l e'))) =
              [fixed8 (fst (f_xy2lon x y e)) ++ "," ++
               fixed8 (fst (f_xy2lat x y e))]).
  { intros l e' Hp. rewrite (body_convert _ _ _ _ _ _ Hp). cbn [fst snd stdout].
    now rewrite (Hlon x y e' e), (Hlat x y (snd (f_xy2lon x y e')) e). }
  destruct (responses_nth f_xy2lon f_xy2lat _ e _ _ Hi) as [ei ->].
  destruct (responses_nth f_xy2lon f_xy2lat _ e _ _ Hj) as [ej ->].
  now rewrite (Hline li ei Hpi), (Hline lj ej Hpj).
Qed.

(** C7 on the first and third line of the sample session, with a malformed
    line between them. *)
Lemma C7_same_request_same_line_witness :
  state_independent Sample.lon /\ state_independent Sample.lat /\
  nth_error (served Sample.session) 0 = Some "1 2" /\
  nth_error (served Sample.session) 2 = Some " 1 2 " /\
  parse_xy (trim "1 2") = Some (Sample.one, Sample.two) /\
  parse_xy (trim " 1 2 ") = Some (Sample.one, Sample.two) /\
  exists s,
    s = fixed8 (fst (Sample.lon Sample.one Sample.two 0)) ++ "," ++
        fixed8 (fst (Sample.lat Sample.one Sample.two 0)) /\
    nth_error (responses Sample.lon Sample.lat (served Sample.session) 0) 0
      = Some [s] /\
    nth_error (responses Sample.lon Sample.lat (served Sample.session) 0) 2
      = Some [s].
Proof.
  assert (H1 : state_independent Sample.lon) by (intros x y e e'; reflexivity).
  assert (H2 : state_independent Sample.lat) by (intros x y e e'; reflexivity).
  assert (H3 : nth_error (served Sample.session) 0 = Some "1 2")
    by (vm_compute; reflexivity).
  assert (H4 : nth_error (served Sample.session) 2 = Some " 1 2 ")
    by (vm_compute; reflexivity).
  assert (H5 : parse_xy (trim "1 2") = Some (Sample.one, Sample.two))
    by (vm_compute; reflexivity).
  assert (H6 : parse_xy (trim " 1 2 ") = Some (Sample.one, Sample.two))
    by (vm_compute; reflexivity).
  exact (conj H1 (conj H2 (conj H3 (conj H4 (conj H5 (conj H6
           (C7_same_request_same_line Sample.lon Sample.lat Sample.session 0
              0 2 "1 2" " 1 2 " Sample.one Sample.two H1 H2 H3 H4 H5 H6))))))).
Defined.

(** C8.  A line that is reached, is neither empty nor [EXIT] after
    trimming, and from which two floats cannot be extracted, contributes
    to the run only its reading and the output line
    [ERROR: Invalid input format]: no conversion function is called for
    it, and everything before and after it, the final state of the
    library and the unread input are those of the run without it. *)
Theorem C8_malformed_is_isolated {E : Type} (f_xy2lon f_xy2lat : f_funcf E)
    pre m post e :
  no_exit pre ->
  trim m <> "" -> trim m <> "EXIT" -> parse_xy (trim m) = None ->
  calls (snd (fst (body f_xy2lon f_xy2lat m e))) = [] /\
  exists A B,
    trace_of (loop f_xy2lon f_xy2lat (pre ++ m :: post) e) =
      (A ++ [Getline (Some m); Cout invalid_input] ++ B)%list /\
    trace_of (loop f_xy2lon f_xy2lat (pre ++ post) e) = (A ++ B)%list /\
    state_of (loop f_xy2lon f_xy2lat (pre ++ m :: post) e) =
      state_of (loop f_xy2lon f_xy2lat (pre ++ post) e) /\
    rest_of (loop f_xy2lon f_xy2lat (pre ++ m :: post) e) =
      rest_of (loop f_xy2lon f_xy2lat (pre ++ post) e).
Proof.
  intros Hpre Hne Hex Hp.
  split; [now rewrite (body_malformed _ _ _ _ Hne Hex Hp) |].
  destruct (loop_app f_xy2lon f_xy2lat pre Hpre e) as (A & e1 & _ & Happ).
  exists A, (trace_of (loop f_xy2lon f_xy2lat post e1)).
  rewrite !Happ, (loop_continue _ _ _ _ _ Hex),
    (body_malformed _ _ _ _ Hne Hex Hp).
  unfold trace_of, state_of, rest_of; cbn [fst snd app].
  repeat split; reflexivity.
Qed.

(** C8 on the line [abc def] between two requests. *)
Lemma C8_malformed_is_isolated_witness :
  no_exit ["1 2"] /\
  trim "abc def" <> "" /\ trim "abc def" <> "EXIT" /\
  parse_xy (trim "abc def") = None /\
  calls (snd (fst (body Sample.lon Sample.lat "abc def" 0))) = [] /\
  exists A B,
    trace_of (loop Sample.lon Sample.lat (["1 2"] ++ "abc def" :: ["3 4"]) 0) =
      (A ++ [Getline (Some "abc def"); Cout invalid_input] ++ B)%list /\
    trace_of (loop Sample.lon Sample.lat (["1 2"] ++ ["3 4"]) 0) = (A ++ B)%list /\
    state_of (loop Sample.lon Sample.lat (["1 2"] ++ "abc def" :: ["3 4"]) 0) =
      state_of (loop Sample.lon Sample.lat (["1 2"] ++ ["3 4"]) 0) /\
    rest_of (loop Sample.lon Sample.lat (["1 2"] ++ "abc def" :: ["3 4"]) 0) =
      rest_of (loop Sample.lon Sample.lat (["1 2"] ++ ["3 4"]) 0).
Proof.
  assert (H1 : no_exit ["1 2"])
    by (repeat constructor; vm_compute; discriminate).
  assert (H2 : trim "abc def" <> "") by (vm_compute; discriminate).
  assert (H3 : trim "abc def" <> "EXIT") by (vm_compute; discriminate).
  assert (H4 : parse_xy (trim "abc def") = None) by (vm_compute; reflexivity).
  exact (conj H1 (conj H2 (conj H3 (conj H4
           (C8_malformed_is_isolated Sample.lon Sample.lat
              ["1 2"] "abc def" ["3 4"] 0 H1 H2 H3 H4))))).
Defined.

(** ** Pure entry points *)

Section PureFacts.

Context {E : Type}.
Variables f_xy2lon f_xy2lat : f_funcf E.
Variables lon lat : f32 -> f32 -> f32.
Hypothesis Hlon : forall x y e, fst (f_xy2lon x y e) = lon x y.
Hypothesis Hlat : forall x y e, fst (f_xy2lat x y e) = lat x y.

Lemma body_answer line e :
  trim line <> "EXIT" ->
  stdout (snd (fst (body f_xy2lon f_xy2lat line e))) = answer lon lat line.
Proof.
  intros Hl. unfold answer.
  destruct (String.eqb_spec (trim line) "") as [He | He].
  - now rewrite (body_empty _ _ _ _ He).
  - destruct (String.eqb_spec (trim line) "EXIT") as [Hx | _];
      [now destruct Hl |].
    destruct (parse_xy (trim line)) as [[x y] |] eqn:Hp.
    + rewrite (body_convert _ _ _ _ _ _ Hp). cbn [fst snd stdout].
      now rewrite Hlon, Hlat.
    + now rewrite (body_malformed _ _ _ _ He Hl Hp).
Qed.

Lemma responses_answer ls : no_exit ls -> forall e,
  responses f_xy2lon f_xy2lat ls e = map (answer lon lat) ls.
Proof.
  induction 1 as [| l ls Hl _ IH]; intros e; [reflexivity |].
  cbn [responses map]. rewrite <- (body_answer l e Hl).
  destruct (body f_xy2lon f_xy2lat l e) as [[fl ev] e1].
  cbn [fst snd]. now rewrite IH.
Qed.

(** With pure conversion functions the output of the loop is the answers
    to the served lines, whatever the state of the library. *)
Lemma loop_answers cin e :
  stdout (trace_of (loop f_xy2lon f_xy2lat cin e)) =
    flat_map (answer lon lat) (served cin).
Proof.
  rewrite stdout_loop, (responses_answer _ (no_exit_served cin)).
  symmetry. apply flat_map_concat_map.
Qed.

End PureFacts.

(** With pure entry points, standard output and the exit status of a
    run are decided by what the start-up arguments resolve to and by the
    input lines. *)
Lemma main_outcome {E : Type} argv (h : host E) init lon lat cin :
  pure_host h init lon lat ->
  (stdout (events (main argv h cin)), exit_code (main argv h cin)) =
    outcome init lon lat (resolution argv h) cin.
Proof.
  intros Hpure. unfold main, resolution, outcome.
  destruct (List.length argv =? 2)%nat; cbn [negb]; [| reflexivity].
  destruct (InstallDir h) as [root_dir |]; [| reflexivity].
  destruct (LoadLibraryA h (dll_path root_dir)) as [lib |] eqn:Hload;
    [| reflexivity].
  destruct (Hpure _ _ Hload) as (Hinit & Hlon & Hlat).
  destruct (NaviConInit lib) as [f_init |]; [| reflexivity].
  destruct (XYToLon lib) as [f_xy2lon |]; [| reflexivity].
  destruct (XYToLat lib) as [f_xy2lat |]; [| reflexivity].
  specialize (Hinit f_init eq_refl (trn_name root_dir (nth 1 argv ""))
                (image lib)).
  destruct (f_init _ _) as [init_ret e]. cbn [fst] in Hinit. subst init_ret.
  destruct (init _ =? 0)%Z; [reflexivity |].
  pose proof (loop_answers f_xy2lon f_xy2lat lon lat
                (Hlon _ eq_refl) (Hlat _ eq_refl) cin e) as Hloop.
  destruct (loop f_xy2lon f_xy2lat cin e) as [[evs rest] e'].
  unfold trace_of in Hloop; cbn [fst] in Hloop.
  cbn [events exit_code app stdout]. now rewrite Hloop.
Qed.

(** C10.  The session is deterministic.  Take the three entry points to
    be fixed pure functions [init], [lon] and [lat], and two runs of the
    process, each with its own arguments, its own host and its own
    library state: when the start-up arguments of the two runs resolve in
    the same way and the input lines are the same, the two runs write the
    same lines to standard output and end with the same exit status, which
    are those the resolution, the three functions and the input lines
    decide. *)
Theorem C10_same_resolution_same_run {E1 E2 : Type}
    argv1 (h1 : host E1) argv2 (h2 : host E2) init lon lat cin :
  pure_host h1 init lon lat -> pure_host h2 init lon lat ->
  resolution argv1 h1 = resolution argv2 h2 ->
  stdout (events (main argv1 h1 cin)) = stdout (events (main argv2 h2 cin)) /\
  exit_code (main argv1 h1 cin) = exit_code (main argv2 h2 cin) /\
  (stdout (events (main argv1 h1 cin)), exit_code (main argv1 h1 cin)) =
    outcome init lon lat (resolution argv1 h1) cin.
Proof.
  intros H1 H2 Hres.
  pose proof (main_outcome argv1 h1 init lon lat cin H1) as Ho1.
  pose proof (main_outcome argv2 h2 init lon lat cin H2) as Ho2.
  rewrite <- Hres in Ho2. rewrite <- Ho1 in Ho2.
  injection Ho2 as Hout Hcode. auto.
Qed.

(** C10 on two installations in different directories, one with a
    library that counts its calls and one with a library without state,
    the first run being given the scenery name and the second the path of
    the terrain file. *)
Lemma C10_same_resolution_same_run_witness :
  pure_host Sample.condor Sample.pure_init Sample.pure_lon Sample.pure_lat /\
  pure_host Sample.elsewhere Sample.pure_init Sample.pure_lon Sample.pure_lat /\
  resolution Sample.argv Sample.condor =
    resolution Sample.argv_path Sample.elsewhere /\
  stdout (events (main Sample.argv Sample.condor Sample.session)) =
    stdout (events (main Sample.argv_path Sample.elsewhere Sample.session)) /\
  exit_code (main Sample.argv Sample.condor Sample.session) =
    exit_code (main Sample.argv_path Sample.elsewhere Sample.session) /\
  (stdout (events (main Sample.argv Sample.condor Sample.session)),
   exit_code (main Sample.argv Sample.condor Sample.session)) =
    outcome Sample.pure_init Sample.pure_lon Sample.pure_lat
      (resolution Sample.argv Sample.condor) Sample.session.
Proof.
  assert (H1 : pure_host Sample.condor
                 Sample.pure_init Sample.pure_lon Sample.pure_lat).
  { intros path m H. unfold Sample.condor in H. cbn [LoadLibraryA] in H.
    destruct (path =? "C:\Condor3\NaviCon.dll"); [| discriminate H].
    injection H as <-.
    repeat split; intros f Hf; injection Hf as <-; reflexivity. }
  assert (H2 : pure_host Sample.elsewhere
                 Sample.pure_init Sample.pure_lon Sample.pure_lat).
  { intros path m H. unfold Sample.elsewhere in H. cbn [LoadLibraryA] in H.
    destruct (path =? "D:\Games\Condor3\NaviCon.dll"); [| discriminate H].
    injection H as <-.
    repeat split; intros f Hf; injection Hf as <-; reflexivity. }
  assert (H3 : resolution Sample.argv Sample.condor
               = resolution Sample.argv_path Sample.elsewhere)
    by (vm_compute; reflexivity).
  exact (conj H1 (conj H2 (conj H3
           (C10_same_resolution_same_run Sample.argv Sample.condor
              Sample.argv_path Sample.elsewhere
              Sample.pure_init Sample.pure_lon Sample.pure_lat
              Sample.session H1 H2 H3)))).
Defined.

(** * Further properties *)

(** ** The two [erase] calls *)

Lemma take_0 s : Str.take 0 s = EmptyString.
Proof. now destruct s. Qed.

Lemma erase_first s :
  Str.erase s 0 (Str.find_first_not_of s trim_set) = lstrip s.
Proof.
  induction s as [| c s IH]; [reflexivity |].
  cbn [Str.find_first_not_of lstrip].
  destruct (Str.contains trim_set c); [| reflexivity].
  destruct (Str.find_first_not_of s trim_set) as [| n].
  - rewrite <- IH. unfold Str.erase. now rewrite !take_0.
  - rewrite <- IH. unfold Str.erase. now rewrite !take_0.
Qed.

Lemma take_last s :
  Str.take (Str.next (Str.find_last_not_of s trim_set)) s = rstrip s.
Proof.
  induction s as [| c s IH]; [reflexivity |].
  cbn [Str.find_last_not_of rstrip].
  destruct (Str.find_last_not_of s trim_set) as [| n] eqn:Hf.
  - cbn [Str.next] in IH. rewrite take_0 in IH. rewrite <- IH.
    destruct (Str.contains trim_set c); cbn [Str.next Str.take];
      now rewrite ?take_0.
  - cbn [Str.next] in *.
    change (Str.take (S (S n)) (String c s)) with (String c (Str.take (S n) s)).
    rewrite IH.
    destruct s as [| d s]; [discriminate Hf |].
    cbn [Str.take] in IH. now rewrite <- IH.
Qed.

(** Trimming is cutting the trailing blanks off what is left when the
    leading blanks are cut off. *)
Lemma trim_strip s : trim s = rstrip (lstrip s).
Proof.
  unfold trim. cbv zeta. rewrite erase_first.
  unfold Str.erase. apply take_last.
Qed.

Lemma is_blank_app a b : is_blank (a ++ b) = is_blank a && is_blank b.
Proof.
  induction a as [| c a IH]; cbn [is_blank append]; [reflexivity |].
  now rewrite IH, andb_assoc.
Qed.

Lemma lstrip_split s :
  exists lead, s = lead ++ lstrip s /\ is_blank lead = true.
Proof.
  induction s as [| c s (lead & Hs & Hl)]; cbn [lstrip].
  - now exists EmptyString.
  - destruct (Str.contains trim_set c) eqn:Hc.
    + exists (String c lead). cbn [append is_blank]. rewrite Hc, Hl.
      now rewrite <- Hs.
    + now exists EmptyString.
Qed.

Lemma lstrip_first s c :
  first_char (lstrip s) = Some c -> Str.contains trim_set c = false.
Proof.
  induction s as [| d s IH]; cbn [lstrip]; [discriminate |].
  destruct (Str.contains trim_set d) eqn:Hd; [exact IH |].
  cbn [first_char]. now intros [= <-].
Qed.

Lemma lstrip_blank s : is_blank s = true -> lstrip s = EmptyString.
Proof.
  induction s as [| c s IH]; cbn [is_blank lstrip]; [reflexivity |].
  intros H. apply andb_true_iff in H as [-> H]. exact (IH H).
Qed.

Lemma lstrip_lead lead s : is_blank lead = true -> lstrip (lead ++ s) = lstrip s.
Proof.
  induction lead as [| c lead IH]; cbn [is_blank lstrip append]; [reflexivity |].
  intros H. apply andb_true_iff in H as [-> H]. exact (IH H).
Qed.

Lemma lstrip_app s t : is_blank s = false -> lstrip (s ++ t) = lstrip s ++ t.
Proof.
  induction s as [| c s IH]; cbn [is_blank lstrip append]; [discriminate |].
  destruct (Str.contains trim_set c); [exact IH | reflexivity].
Qed.

Lemma rstrip_blank s : is_blank s = true -> rstrip s = EmptyString.
Proof.
  induction s as [| c s IH]; cbn [is_blank rstrip]; [reflexivity |].
  intros H. apply andb_true_iff in H as [-> H]. now rewrite (IH H).
Qed.

Lemma rstrip_trail s trail : is_blank trail = true -> rstrip (s ++ trail) = rstrip s.
Proof.
  intros H. induction s as [| c s IH]; cbn [rstrip append].
  - now apply rstrip_blank.
  - now rewrite IH.
Qed.

Lemma rstrip_split s :
  exists trail, s = rstrip s ++ trail /\ is_blank trail = true.
Proof.
  induction s as [| c s (trail & Hs & Ht)]; cbn [rstrip].
  - now exists EmptyString.
  - destruct (rstrip s) as [| d r] eqn:Hr.
    + cbn [append] in Hs. subst trail.
      destruct (Str.contains trim_set c) eqn:Hc.
      * exists (String c s). cbn [append is_blank]. now rewrite Hc, Ht.
      * exists s. now cbn [append].
    + exists trail. cbn [append] in *. now rewrite <- Hs.
Qed.

Lemma rstrip_last s c :
  last_char (rstrip s) = Some c -> Str.contains trim_set c = false.
Proof.
  induction s as [| d s IH]; cbn [rstrip]; [discriminate |].
  destruct (rstrip s) as [| d' r] eqn:Hr.
  - destruct (Str.contains trim_set d) eqn:Hd; [discriminate |].
    cbn [last_char]. now intros [= <-].
  - cbn [last_char]. exact IH.
Qed.

Lemma rstrip_first s c :
  first_char (rstrip s) = Some c -> first_char s = Some c.
Proof.
  destruct s as [| d s]; cbn [rstrip]; [discriminate |].
  destruct (rstrip s); [destruct (Str.contains trim_set d) |];
    cbn [first_char]; congruence.
Qed.

(** X1.  Trimming removes a run of blanks at the front and a run of blanks
    at the back and nothing else: the line is [lead ++ trim line ++ trail]
    with [lead] and [trail] made of space, tab, carriage return and
    new-line characters only, and what is left neither begins nor ends
    with such a character. *)
Theorem X1_trim_decomposition line :
  exists lead trail,
    line = lead ++ trim line ++ trail /\
    is_blank lead = true /\ is_blank trail = true /\
    (forall c, first_char (trim line) = Some c -> Str.contains trim_set c = false) /\
    (forall c, last_char (trim line) = Some c -> Str.contains trim_set c = false).
Proof.
  rewrite trim_strip.
  destruct (lstrip_split line) as (lead & Hl & Hlead).
  destruct (rstrip_split (lstrip line)) as (trail & Ht & Htrail).
  exists lead, trail. repeat split; try assumption.
  - now rewrite <- Ht.
  - intros c Hc. apply (lstrip_first line). now apply rstrip_first.
  - intros c Hc. now apply (rstrip_last (lstrip line)).
Qed.

Lemma trim_surround lead s trail :
  is_blank lead = true -> is_blank trail = true ->
  trim (lead ++ s ++ trail) = trim s.
Proof.
  intros Hl Ht. rewrite !trim_strip, (lstrip_lead _ _ Hl).
  destruct (is_blank s) eqn:Hs.
  - rewrite (lstrip_blank s Hs), lstrip_blank; [reflexivity |].
    now rewrite is_blank_app, Hs, Ht.
  - rewrite (lstrip_app _ _ Hs). now apply rstrip_trail.
Qed.

(** X2.  Blanks around a line play no part: a line with space, tab,
    carriage return or new-line characters added in front of it or behind
    it (a line ending in a carriage return, for one) trims to the same
    text and is handled by the loop body in the same way. *)
Theorem X2_surrounding_blanks {E : Type} (f_xy2lon f_xy2lat : f_funcf E)
    lead line trail e :
  is_blank lead = true -> is_blank trail = true ->
  trim (lead ++ line ++ trail) = trim line /\
  body f_xy2lon f_xy2lat (lead ++ line ++ trail) e =
    body f_xy2lon f_xy2lat line e.
Proof.
  intros Hl Ht. pose proof (trim_surround lead line trail Hl Ht) as H.
  split; [exact H |]. unfold body. now rewrite H.
Qed.

(** X2 on a request that ends in a carriage return. *)
Lemma X2_surrounding_blanks_witness :
  is_blank " " = true /\ is_blank (String "013" EmptyString) = true /\
  trim (" " ++ "1 2" ++ String "013" EmptyString) = trim "1 2" /\
  body Sample.lon Sample.lat (" " ++ "1 2" ++ String "013" EmptyString) 0 =
    body Sample.lon Sample.lat "1 2" 0.
Proof.
  assert (H1 : is_blank " " = true) by reflexivity.
  assert (H2 : is_blank (String "013" EmptyString) = true) by reflexivity.
  exact (conj H1 (conj H2
           (X2_surrounding_blanks Sample.lon Sample.lat " " "1 2"
              (String "013" EmptyString) 0 H1 H2))).
Defined.

(** X3.  Trimming twice is trimming once. *)
Theorem X3_trim_idempotent line : trim (trim line) = trim line.
Proof.
  destruct (lstrip_split line) as (lead & Hl & Hlead).
  destruct (rstrip_split (lstrip line)) as (trail & Ht & Htrail).
  assert (Hline : lead ++ trim line ++ trail = line)
    by (now rewrite trim_strip, <- Ht, <- Hl).
  transitivity (trim (lead ++ trim line ++ trail)).
  - symmetry. now apply trim_surround.
  - now rewrite Hline.
Qed.

(** X4.  The loop is left exactly on the lines that are [EXIT] with
    blanks around it. *)
Theorem X4_exit_lines {E : Type} (f_xy2lon f_xy2lat : f_funcf E) line e :
  fst (fst (body f_xy2lon f_xy2lat line e)) = Break <->
  exists lead trail,
    line = lead ++ "EXIT" ++ trail /\
    is_blank lead = true /\ is_blank trail = true.
Proof.
  rewrite body_flow. split.
  - destruct (String.eqb_spec (trim line) "EXIT") as [H | _]; [| discriminate].
    intros _.
    destruct (lstrip_split line) as (lead & Hl & Hlead).
    destruct (rstrip_split (lstrip line)) as (trail & Ht & Htrail).
    exists lead, trail. rewrite trim_strip in H.
    rewrite H in Ht. now rewrite <- Ht.
  - intros (lead & trail & -> & Hl & Ht).
    now rewrite (trim_surround lead "EXIT" trail Hl Ht).
Qed.

(** ** What [iss >> x >> y] accepts *)

Lemma skipws_space ws s : all_space ws = true -> skipws (ws ++ s) = skipws s.
Proof.
  induction ws as [| c ws IH]; cbn [all_space append skipws]; [reflexivity |].
  intros H. apply andb_true_iff in H as [-> H]. exact (IH H).
Qed.

Lemma extract_float_space ws s :
  all_space ws = true -> extract_float (ws ++ s) = extract_float s.
Proof. intros H. unfold extract_float. now rewrite (skipws_space _ _ H). Qed.

(** X5.  Two numbers are accepted with any white space in front of the
    first and any non-empty white space between them: spaces, tabs or
    other [std::isspace] characters, in any number.  [a] is a text that is
    one floating-point field as a whole, [b] a text that begins with
    one. *)
Theorem X5_white_space_between a b lead ws x y rest :
  extract_float a = Some (x, EmptyString) ->
  extract_float b = Some (y, rest) ->
  all_space lead = true -> all_space ws = true -> ws <> EmptyString ->
  parse_xy (lead ++ a ++ ws ++ b) = Some (x, y).
Proof.
  intros Ha Hb Hlead Hws Hne.
  destruct ws as [| c ws]; [now destruct Hne |].
  cbn [all_space] in Hws. apply andb_true_iff in Hws as [Hc Hws].
  unfold parse_xy. rewrite (extract_float_space _ _ Hlead).
  cbn [append].
  rewrite (extract_float_tail c (ws ++ b) (isspace_ends_field c Hc) a x "" Ha).
  cbn [append].
  change (String c (ws ++ b)) with (String c ws ++ b).
  rewrite extract_float_space, Hb; [reflexivity |].
  cbn [all_space]. now rewrite Hc, Hws.
Qed.

(** X5 on [-1.5e3], a tab and a space, and [.25]. *)
Lemma X5_white_space_between_witness :
  extract_float "-1.5e3" = Some (F754_finite true 12288000 (-13), EmptyString) /\
  extract_float ".25abc" = Some (F754_finite false 8388608 (-25), "abc") /\
  all_space " " = true /\
  all_space (String "009" " ") = true /\
  String "009" " " <> EmptyString /\
  parse_xy (" " ++ "-1.5e3" ++ String "009" " " ++ ".25abc") =
    Some (F754_finite true 12288000 (-13), F754_finite false 8388608 (-25)).
Proof.
  assert (H1 : extract_float "-1.5e3"
               = Some (F754_finite true 12288000 (-13), EmptyString))
    by (vm_compute; reflexivity).
  assert (H2 : extract_float ".25abc"
               = Some (F754_finite false 8388608 (-25), "abc"))
    by (vm_compute; reflexivity).
  assert (H3 : all_space " " = true) by reflexivity.
  assert (H4 : all_space (String "009" " ") = true) by reflexivity.
  assert (H5 : String "009" " " <> EmptyString) by discriminate.
  exact (conj H1 (conj H2 (conj H3 (conj H4 (conj H5
           (X5_white_space_between "-1.5e3" ".25abc" " " (String "009" " ")
              _ _ "abc" H1 H2 H3 H4 H5)))))).
Defined.



Section CallFacts.

Context {E : Type}.
Variables f_xy2lon f_xy2lat : f_funcf E.

Lemma trace_break line cin e :
  trim line = "EXIT" ->
  trace_of (loop f_xy2lon f_xy2lat (line :: cin) e) = [Getline (Some line)].
Proof. intros H. now rewrite (loop_break _ _ _ _ _ H). Qed.

Lemma trace_continue line cin e :
  trim line <> "EXIT" ->
  trace_of (loop f_xy2lon f_xy2lat (line :: cin) e) =
    (Getline (Some line) :: snd (fst (body f_xy2lon f_xy2lat line e))
       ++ trace_of (loop f_xy2lon f_xy2lat cin
                      (snd (body f_xy2lon f_xy2lat line e))))%list.
Proof. intros H. now rewrite (loop_continue _ _ _ _ _ H). Qed.

Lemma state_continue line cin e :
  trim line <> "EXIT" ->
  state_of (loop f_xy2lon f_xy2lat (line :: cin) e) =
    state_of (loop f_xy2lon f_xy2lat cin (snd (body f_xy2lon f_xy2lat line e))).
Proof. intros H. now rewrite (loop_continue _ _ _ _ _ H). Qed.

Lemma state_break line cin e :
  trim line = "EXIT" ->
  state_of (loop f_xy2lon f_xy2lat (line :: cin) e) = e.
Proof. intros H. now rewrite (loop_break _ _ _ _ _ H). Qed.



Lemma body_calls line e :
  calls (snd (fst (body f_xy2lon f_xy2lat line e))) =
    match parse_xy (trim line) with
    | Some (x, y) =>
        [CallLon x y (fst (f_xy2lon x y e));
         CallLat x y (fst (f_xy2lat x y (snd (f_xy2lon x y e))))]
    | None => []
    end.
Proof.
  destruct (parse_xy (trim line)) as [[x y] |] eqn:Hp.
  - now rewrite (body_convert _ _ _ _ _ _ Hp).
  - unfold body. rewrite Hp.
    destruct (trim line =? ""); [reflexivity |].
    destruct (trim line =? "EXIT"); reflexivity.
Qed.

(** X7.  The calls of a session come in pairs: for each converted line
    the longitude function and then the latitude function, on the same
    two arguments; there are twice as many calls as served lines from
    which two floats are extracted. *)
Theorem X7_calls_in_pairs cin : forall e,
  paired (calls (trace_of (loop f_xy2lon f_xy2lat cin e))) /\
  List.length (calls (trace_of (loop f_xy2lon f_xy2lat cin e))) =
    2 * List.length
          (filter (fun l => match parse_xy (trim l) with
                            | Some _ => true
                            | None => false
                            end) (served cin)).
Proof.
  induction cin as [| l cin IH]; intros e.
  - split; [exact I | reflexivity].
  - cbn [served].
    destruct (String.eqb_spec (trim l) "EXIT") as [Hl | Hl].
    + rewrite (trace_break _ _ _ Hl). split; [exact I | reflexivity].
    + rewrite (trace_continue _ _ _ Hl).
      cbn [calls filter]. rewrite calls_app, body_calls.
      destruct (IH (snd (body f_xy2lon f_xy2lat l e))) as [Hp Hn].
      destruct (parse_xy (trim l)) as [[x y] |]; cbn [app paired List.length].
      * split; [auto |]. rewrite Hn. lia.
      * split; assumption.
Qed.

(** X8.  The answers to the lines read so far do not depend on the lines
    that follow: the output and the calls of a session on [pre ++ post]
    begin with the output and the calls of the session on [pre]. *)
Theorem X8_answers_do_not_look_ahead pre post : forall e,
  exists out later,
    stdout (trace_of (loop f_xy2lon f_xy2lat (pre ++ post) e)) =
      (stdout (trace_of (loop f_xy2lon f_xy2lat pre e)) ++ out)%list /\
    calls (trace_of (loop f_xy2lon f_xy2lat (pre ++ post) e)) =
      (calls (trace_of (loop f_xy2lon f_xy2lat pre e)) ++ later)%list.
Proof.
  induction pre as [| l pre IH]; intros e.
  - do 2 eexists. split; reflexivity.
  - cbn [app].
    destruct (String.eqb_spec (trim l) "EXIT") as [Hl | Hl].
    + rewrite !(trace_break _ _ _ Hl). exists [], [].
      now rewrite !app_nil_r.
    + rewrite !(trace_continue _ _ _ Hl).
      destruct (IH (snd (body f_xy2lon f_xy2lat l e))) as (out & later & Ho & Hc).
      exists out, later. cbn [stdout calls].
      rewrite !stdout_app, !calls_app, Ho, Hc, !app_assoc. split; reflexivity.
Qed.

(** X9.  Blank lines can be dropped from the input without any change
    to the output, to the calls or to the final state of the library. *)
Theorem X9_blank_lines_are_invisible cin : forall e,
  stdout (trace_of (loop f_xy2lon f_xy2lat
                      (filter (fun l => negb (is_blank l)) cin) e)) =
    stdout (trace_of (loop f_xy2lon f_xy2lat cin e)) /\
  calls (trace_of (loop f_xy2lon f_xy2lat
                     (filter (fun l => negb (is_blank l)) cin) e)) =
    calls (trace_of (loop f_xy2lon f_xy2lat cin e)) /\
  state_of (loop f_xy2lon f_xy2lat
              (filter (fun l => negb (is_blank l)) cin) e) =
    state_of (loop f_xy2lon f_xy2lat cin e).
Proof.
  induction cin as [| l cin IH]; intros e; [repeat split |].
  cbn [filter]. destruct (is_blank l) eqn:Hb; cbn [negb].
  - pose proof (trim_blank l Hb) as Ht.
    assert (Hl : trim l <> "EXIT") by (rewrite Ht; discriminate).
    rewrite (trace_continue l cin e Hl), (state_continue l cin e Hl).
    rewrite (body_empty _ _ _ _ Ht). cbn [fst snd app stdout calls].
    apply IH.
  - destruct (String.eqb_spec (trim l) "EXIT") as [Hl | Hl].
    + rewrite !(trace_break _ _ _ Hl), !(state_break _ _ _ Hl). repeat split.
    + rewrite !(trace_continue _ _ _ Hl), !(state_continue _ _ _ Hl).
      cbn [stdout calls]. rewrite !stdout_app, !calls_app.
      destruct (IH (snd (body f_xy2lon f_xy2lat l e))) as (Ho & Hc & Hs).
      now rewrite Ho, Hc, Hs.
Qed.

End CallFacts.

(** ** The text of an output line *)

Lemma all_fixed_chars_app a b :
  all_fixed_chars (a ++ b) = all_fixed_chars a && all_fixed_chars b.
Proof.
  induction a as [| c a IH]; cbn [all_fixed_chars append]; [reflexivity |].
  now rewrite IH, andb_assoc.
Qed.

Lemma all_digits_fixed_chars s : all_digits s = true -> all_fixed_chars s = true.
Proof.
  induction s as [| c s IH]; cbn [all_digits all_fixed_chars]; [reflexivity |].
  intros H. apply andb_true_iff in H as [Hc Hs].
  unfold fixed_char. now rewrite Hc, (IH Hs).
Qed.

Lemma fixed_of_scaled_chars s n : all_fixed_chars (fixed_of_scaled s n) = true.
Proof.
  unfold fixed_of_scaled.
  destruct (decimal_ok (n / 10 ^ 8)) as (c & r & Hdec & Hc & Hr).
  destruct (fixed_digits_ok 8 (n mod 10 ^ 8)) as [Hfd _].
  rewrite !all_fixed_chars_app.
  rewrite (all_digits_fixed_chars (decimal (n / 10 ^ 8))),
          (all_digits_fixed_chars _ Hfd).
  - destruct s; reflexivity.
  - rewrite Hdec. cbn [all_digits]. now rewrite Hc, Hr.
Qed.

Lemma fixed8_chars f : is_nan f = false -> all_fixed_chars (fixed8 f) = true.
Proof.
  destruct f as [s | s | s chars | s m e]; cbn [fixed8 is_nan]; intros H;
    try discriminate H; try apply fixed_of_scaled_chars; destruct s; reflexivity.
Qed.

Lemma split_comma_app a b :
  all_fixed_chars a = true -> split_comma (a ++ String "," b) = Some (a, b).
Proof.
  induction a as [| c a IH]; cbn [all_fixed_chars append split_comma];
    [reflexivity |].
  intros H. apply andb_true_iff in H as [Hc Ha].
  destruct (Ascii.eqb_spec c ",") as [-> | _]; [discriminate Hc |].
  now rewrite (IH Ha).
Qed.

(** X10.  When neither result is a not-a-number, the line the loop body
    writes for a converted request is made of digits, minus signs, points,
    the letters of [inf] and exactly one comma: cutting it at its first
    comma gives back the two fields as they were written.  The lines
    [READY] and [ERROR: Invalid input format] have no comma. *)
Theorem X10_line_splits_at_comma {E : Type} (f_xy2lon f_xy2lat : f_funcf E)
    line e x y :
  parse_xy (trim line) = Some (x, y) ->
  is_nan (fst (f_xy2lon x y e)) = false ->
  is_nan (fst (f_xy2lat x y (snd (f_xy2lon x y e)))) = false ->
  exists s,
    stdout (snd (fst (body f_xy2lon f_xy2lat line e))) = [s] /\
    split_comma s =
      Some (fixed8 (fst (f_xy2lon x y e)),
            fixed8 (fst (f_xy2lat x y (snd (f_xy2lon x y e))))) /\
    all_fixed_chars (fixed8 (fst (f_xy2lon x y e))) = true /\
    all_fixed_chars (fixed8 (fst (f_xy2lat x y (snd (f_xy2lon x y e))))) = true /\
    split_comma invalid_input = None /\
    split_comma "READY" = None.
Proof.
  intros Hp Hlon Hlat. eexists.
  rewrite (body_convert _ _ _ _ _ _ Hp). cbn [fst snd stdout].
  split; [reflexivity |].
  split; [apply (split_comma_app (fixed8 _) (fixed8 _)), fixed8_chars, Hlon |].
  split; [apply fixed8_chars, Hlon |].
  split; [apply fixed8_chars, Hlat |].
  split; reflexivity.
Qed.

(** X10 on the request [1 2], answered by its two arguments. *)
Lemma X10_line_splits_at_comma_witness :
  parse_xy (trim "1 2") = Some (Sample.one, Sample.two) /\
  is_nan (fst (Sample.lon Sample.one Sample.two 0)) = false /\
  is_nan (fst (Sample.lat Sample.one Sample.two
                 (snd (Sample.lon Sample.one Sample.two 0)))) = false /\
  exists s,
    stdout (snd (fst (body Sample.lon Sample.lat "1 2" 0))) = [s] /\
    split_comma s =
      Some (fixed8 (fst (Sample.lon Sample.one Sample.two 0)),
            fixed8 (fst (Sample.lat Sample.one Sample.two
                           (snd (Sample.lon Sample.one Sample.two 0))))) /\
    all_fixed_chars (fixed8 (fst (Sample.lon Sample.one Sample.two 0))) = true /\
    all_fixed_chars
      (fixed8 (fst (Sample.lat Sample.one Sample.two
                      (snd (Sample.lon Sample.one Sample.two 0))))) = true /\
    split_comma invalid_input = None /\
    split_comma "READY" = None.
Proof.
  assert (H1 : parse_xy (trim "1 2") = Some (Sample.one, Sample.two))
    by (vm_compute; reflexivity).
  assert (H2 : is_nan (fst (Sample.lon Sample.one Sample.two 0)) = false)
    by reflexivity.
  assert (H3 : is_nan (fst (Sample.lat Sample.one Sample.two
                              (snd (Sample.lon Sample.one Sample.two 0)))) = false)
    by reflexivity.
  exact (conj H1 (conj H2 (conj H3
           (X10_line_splits_at_comma Sample.lon Sample.lat "1 2" 0
              Sample.one Sample.two H1 H2 H3)))).
Defined.

(** ** The number an output field denotes *)

Lemma digit_val_char d : (0 <= d < 10)%Z -> digit_val (digit_char d) = d.
Proof.
  intros H.
  assert (Hd : In d [0; 1; 2; 3; 4; 5; 6; 7; 8; 9]%Z) by (cbn [In]; lia).
  cbn [In] in Hd.
  repeat (destruct Hd as [<- | Hd]; [vm_compute; reflexivity |]).
  contradiction.
Qed.

Lemma digits_of_app a b : digits_of (a ++ b) = (digits_of a ++ digits_of b)%list.
Proof.
  unfold digits_of.
  induction a as [| c a IH]; cbn [append list_ascii_of_string map app];
    [reflexivity |].
  now rewrite IH.
Qed.

Lemma digits_value_snoc ds d :
  digits_value (ds ++ [d]) = (10 * digits_value ds + d)%Z.
Proof. unfold digits_value. now rewrite fold_left_app. Qed.

Lemma digits_value_cons_aux ds : forall acc,
  fold_left (fun a d => 10 * a + d)%Z ds acc =
    (acc * 10 ^ Z.of_nat (List.length ds)
     + fold_left (fun a d => 10 * a + d)%Z ds 0)%Z.
Proof.
  induction ds as [| d ds IH]; intros acc; cbn [fold_left List.length].
  - cbn. lia.
  - rewrite (IH (10 * acc + d)%Z), (IH (10 * 0 + d)%Z).
    rewrite Nat2Z.inj_succ, Z.pow_succ_r by lia. lia.
Qed.

Lemma digits_value_app a b :
  digits_value (a ++ b) =
    (digits_value a * 10 ^ Z.of_nat (List.length b) + digits_value b)%Z.
Proof.
  unfold digits_value. rewrite fold_left_app. apply digits_value_cons_aux.
Qed.

Lemma fixed_digits_value k : forall n,
  digits_value (digits_of (fixed_digits k n)) = (n mod 10 ^ Z.of_nat k)%Z.
Proof.
  induction k as [| k IH]; intros n.
  - cbn [fixed_digits]. change (10 ^ Z.of_nat 0)%Z with 1%Z.
    now rewrite Z.mod_1_r.
  - cbn [fixed_digits]. rewrite digits_of_app.
    change (digits_of (String (digit_char (n mod 10)) EmptyString))
      with [digit_val (digit_char (n mod 10))].
    rewrite digits_value_snoc, IH, digit_val_char
      by (apply Z.mod_pos_bound; lia).
    rewrite Nat2Z.inj_succ, Z.pow_succ_r by lia.
    assert (Hk : (0 < 10 ^ Z.of_nat k)%Z) by (apply Z.pow_pos_nonneg; lia).
    rewrite Z.rem_mul_r by lia. lia.
Qed.

Lemma pos_digits_value fuel : forall n acc,
  (0 <= n < 10 ^ Z.of_nat fuel)%Z ->
  exists pre,
    pos_digits fuel n acc = pre ++ acc /\
    digits_value (digits_of pre) = n.
Proof.
  induction fuel as [| fuel IH]; intros n acc Hn.
  - exists EmptyString. split; [reflexivity |].
    change (10 ^ Z.of_nat 0)%Z with 1%Z in Hn. cbn. lia.
  - cbn [pos_digits]. destruct (Z.ltb_spec n 10) as [Hlt | Hge].
    + exists (String (digit_char (n mod 10)) EmptyString).
      split; [reflexivity |].
      change (digits_of (String (digit_char (n mod 10)) EmptyString))
        with [digit_val (digit_char (n mod 10))].
      rewrite digit_val_char by (apply Z.mod_pos_bound; lia).
      unfold digits_value; cbn [fold_left]. rewrite Z.mod_small; lia.
    + rewrite Nat2Z.inj_succ, Z.pow_succ_r in Hn by lia.
      destruct (IH (n / 10)%Z (String (digit_char (n mod 10)) acc))
        as (pre & Hp & Hv).
      { split; [apply Z.div_pos; lia |].
        apply Z.div_lt_upper_bound; lia. }
      exists (pre ++ String (digit_char (n mod 10)) EmptyString).
      split.
      * rewrite Hp. clear. induction pre; cbn [append]; congruence.
      * rewrite digits_of_app.
        change (digits_of (String (digit_char (n mod 10)) EmptyString))
          with [digit_val (digit_char (n mod 10))].
        rewrite digits_value_snoc, Hv, digit_val_char
          by (apply Z.mod_pos_bound; lia).
        pose proof (Z.div_mod n 10). lia.
Qed.

Lemma decimal_value n : (0 <= n)%Z -> digits_value (digits_of (decimal n)) = n.
Proof.
  intros Hn. unfold decimal.
  destruct (pos_digits_value (S (Z.to_nat (Z.log2 n))) n EmptyString)
    as (pre & Hp & Hv).
  - split; [assumption |].
    destruct (Z.eq_dec n 0) as [-> | Hnz]; [reflexivity |].
    rewrite Nat2Z.inj_succ, Z2Nat.id by apply Z.log2_nonneg.
    apply Z.lt_le_trans with (2 ^ Z.succ (Z.log2 n))%Z.
    + apply Z.log2_spec. lia.
    + apply Z.pow_le_mono_l. pose proof (Z.log2_nonneg n). lia.
  - rewrite Hp. clear Hp.
    assert (Hnil : forall s, s ++ EmptyString = s)
      by (induction s; cbn [append]; congruence).
    now rewrite Hnil.
Qed.

Lemma scaled8_nonneg m e : (0 <= scaled8 m e)%Z.
Proof.
  unfold scaled8. destruct e as [| p | p].
  - lia.
  - pose proof (Z.pow_pos_nonneg 2 (Z.pos p)). nia.
  - change (Z.pow_pos 2 p) with (2 ^ Z.pos p)%Z.
    assert (Hd : (0 < 2 ^ Z.pos p)%Z) by (apply Z.pow_pos_nonneg; lia).
    assert (Hq : (0 <= Z.pos m * 10 ^ 8 / 2 ^ Z.pos p)%Z)
      by (apply Z.div_pos; lia).
    destruct (_ ?= _)%Z; [destruct (Z.even _) | |]; lia.
Qed.

(** X11.  A finite non-zero float [(-1)^s * m * 2^e] is written as its
    sign, an integer part and eight decimals which, read as decimal
    numbers, are the quotient and the remainder by 10^8 of an integer [N],
    where [N] is the value of [m * 2^e * 10^8] rounded to the nearest
    integer: exact when [e] is not negative, and otherwise within half a
    unit, ties going to the even integer. *)
Theorem X11_written_value (s : bool) (m : positive) (e : Z) :
  exists ip fp N,
    fixed8 (F754_finite s m e) = sign_string s ++ ip ++ "." ++ fp /\
    all_digits ip = true /\ all_digits fp = true /\ String.length fp = 8 /\
    digits_value (digits_of ip) = (N / 10 ^ 8)%Z /\
    digits_value (digits_of fp) = (N mod 10 ^ 8)%Z /\
    (0 <= N)%Z /\
    ((0 <= e)%Z -> N = (Z.pos m * 2 ^ e * 10 ^ 8)%Z) /\
    ((e < 0)%Z ->
     (2 * Z.abs (N * 2 ^ (- e) - Z.pos m * 10 ^ 8) <= 2 ^ (- e))%Z /\
     ((2 * Z.abs (N * 2 ^ (- e) - Z.pos m * 10 ^ 8) = 2 ^ (- e))%Z ->
      Z.even N = true)).
Proof.
  exists (decimal (scaled8 m e / 10 ^ 8)),
         (fixed_digits 8 (scaled8 m e mod 10 ^ 8)), (scaled8 m e).
  pose proof (scaled8_nonneg m e) as HN.
  destruct (decimal_ok (scaled8 m e / 10 ^ 8)) as (c & r & Hdec & Hc & Hr).
  destruct (fixed_digits_ok 8 (scaled8 m e mod 10 ^ 8)) as [Hfd Hfl].
  split; [reflexivity |].
  split; [rewrite Hdec; cbn [all_digits]; now rewrite Hc, Hr |].
  split; [exact Hfd |]. split; [exact Hfl |].
  split; [apply decimal_value, Z.div_pos; lia |].
  split.
  { rewrite fixed_digits_value. change (10 ^ Z.of_nat 8)%Z with (10 ^ 8)%Z.
    apply Z.mod_mod. lia. }
  split; [exact HN |].
  split.
  - intros He. unfold scaled8. destruct e as [| p | p]; [| | lia].
    + change (2 ^ 0)%Z with 1%Z. lia.
    + lia.
  - intros He. destruct e as [| p | p]; try lia.
    unfold scaled8. change (- Z.neg p)%Z with (Z.pos p).
    change (Z.pow_pos 2 p) with (2 ^ Z.pos p)%Z.
    set (d := (2 ^ Z.pos p)%Z).
    set (n := (Z.pos m * 10 ^ 8)%Z).
    assert (Hd : (0 < d)%Z) by (apply Z.pow_pos_nonneg; lia).
    pose proof (Z.div_mod n d ltac:(lia)) as Hdm.
    pose proof (Z.mod_pos_bound n d Hd) as Hr'.
    set (q := (n / d)%Z) in *. set (r' := (n mod d)%Z) in *.
    assert (Hqd : (d * q = q * d)%Z) by lia.
    destruct (Z.compare_spec (2 * r') d) as [Heq | Hlt | Hgt].
    + destruct (Z.even q) eqn:Hev.
      * split; [| intros _; exact Hev].
        replace (q * d - n)%Z with (- r')%Z by lia. lia.
      * split.
        -- replace ((q + 1) * d - n)%Z with (d - r')%Z by lia. lia.
        -- intros _. rewrite Z.even_add, Hev. reflexivity.
    + split.
      * replace (q * d - n)%Z with (- r')%Z by lia. lia.
      * replace (q * d - n)%Z with (- r')%Z by lia. lia.
    + split.
      * replace ((q + 1) * d - n)%Z with (d - r')%Z by lia. lia.
      * replace ((q + 1) * d - n)%Z with (d - r')%Z by lia. lia.
Qed.

(** ** Start-up and the two output streams *)

Lemma loads_app a b : loads (a ++ b) = (loads a ++ loads b)%list.
Proof.
  induction a as [| [] a IH]; cbn [loads app]; rewrite ?IH; reflexivity.
Qed.

Lemma inits_app a b : inits (a ++ b) = (inits a ++ inits b)%list.
Proof.
  induction a as [| [] a IH]; cbn [inits app]; rewrite ?IH; reflexivity.
Qed.

Section SessionEvents.

Context {E : Type}.
Variables f_xy2lon f_xy2lat : f_funcf E.

Lemma body_quiet line e :
  loads (snd (fst (body f_xy2lon f_xy2lat line e))) = [] /\
  inits (snd (fst (body f_xy2lon f_xy2lat line e))) = [] /\
  stderr (snd (fst (body f_xy2lon f_xy2lat line e))) = [].
Proof.
  unfold body.
  destruct (trim line =? ""); [repeat split |].
  destruct (trim line =? "EXIT"); [repeat split |].
  destruct (parse_xy (trim line)) as [[x y] |]; [| repeat split].
  destruct (f_xy2lon x y e) as [lon e1].
  destruct (f_xy2lat x y e1) as [lat e2]. repeat split.
Qed.

Lemma loop_quiet cin : forall e,
  loads (trace_of (loop f_xy2lon f_xy2lat cin e)) = [] /\
  inits (trace_of (loop f_xy2lon f_xy2lat cin e)) = [] /\
  stderr (trace_of (loop f_xy2lon f_xy2lat cin e)) = [].
Proof.
  induction cin as [| l cin IH]; intros e; [repeat split |].
  destruct (String.eqb_spec (trim l) "EXIT") as [Hl | Hl].
  - rewrite (trace_break _ _ _ _ _ Hl). repeat split.
  - rewrite (trace_continue _ _ _ _ _ Hl). cbn [loads inits stderr].
    rewrite loads_app, inits_app, stderr_app.
    destruct (body_quiet l e) as (-> & -> & ->).
    destruct (IH (snd (body f_xy2lon f_xy2lat l e))) as (-> & -> & ->).
    repeat split.
Qed.

End SessionEvents.

Lemma startup_failure_fails {E : Type} argv (h : host E) cin :
  startup_failure argv h -> exit_code (main argv h cin) = EXIT_FAILURE.
Proof.
  intros Hfail.
  destruct (main_failure_shape argv h cin) as [Hok | (Hcode & _)];
    [| exact Hcode].
  exfalso.
  destruct (main_success argv h cin Hok)
    as (root & lib & f_init & f_lon & f_lat &
        Hargc & Hdir & Hload & Hi & Hlon & Hlat & Hret & _).
  destruct Hfail as [H | H | r H H' | r l H H' H'' | r l f H H' H'' H'''].
  - contradiction.
  - congruence.
  - congruence.
  - assert (r = root) by congruence; subst r.
    assert (l = lib) by congruence; subst l.
    destruct H'' as [H'' | [H'' | H'']]; congruence.
  - assert (r = root) by congruence; subst r.
    assert (l = lib) by congruence; subst l.
    assert (f = f_init) by congruence; subst f.
    contradiction.
Qed.

Lemma failure_is_startup_failure {E : Type} argv (h : host E) cin :
  exit_code (main argv h cin) = EXIT_FAILURE -> startup_failure argv h.
Proof.
  unfold main.
  destruct (List.length argv =? 2)%nat eqn:Hargc; cbn [negb].
  2: { intros _. apply wrong_argument_count. now apply Nat.eqb_neq. }
  destruct (InstallDir h) as [root_dir |] eqn:Hdir.
  2: { intros _. now apply install_dir_unresolved. }
  destruct (LoadLibraryA h (dll_path root_dir)) as [lib |] eqn:Hload.
  2: { intros _. now apply (load_failed argv h root_dir). }
  destruct (NaviConInit lib) as [f_init |] eqn:Hi.
  2: { intros _. apply (entry_point_missing argv h root_dir lib); auto. }
  destruct (XYToLon lib) as [f_xy2lon |] eqn:Hlon.
  2: { intros _. apply (entry_point_missing argv h root_dir lib); auto. }
  destruct (XYToLat lib) as [f_xy2lat |] eqn:Hlat.
  2: { intros _. apply (entry_point_missing argv h root_dir lib); auto. }
  destruct (f_init _ _) as [init_ret e] eqn:Hinit.
  destruct (init_ret =? 0)%Z eqn:Hret.
  - intros _. apply (initializer_failed argv h root_dir lib f_init); auto.
    rewrite Hinit. cbn [fst]. now apply Z.eqb_eq.
  - destruct (loop _ _ _ _) as [[evs rest] e']. discriminate.
Qed.

(** X12.  The five start-up failures are the only way to a non-zero exit
    status: the process exits with [EXIT_FAILURE] exactly when one of them
    occurs, and with [EXIT_SUCCESS] exactly when none does, whatever
    standard input holds. *)
Theorem X12_exit_status {E : Type} argv (h : host E) cin :
  (exit_code (main argv h cin) = EXIT_FAILURE <-> startup_failure argv h) /\
  (exit_code (main argv h cin) = EXIT_SUCCESS <-> ~ startup_failure argv h).
Proof.
  split; split.
  - apply failure_is_startup_failure.
  - apply startup_failure_fails.
  - intros Hok Hfail. rewrite (startup_failure_fails argv h cin Hfail) in Hok.
    discriminate Hok.
  - intros Hno.
    destruct (main_failure_shape argv h cin) as [Hok | (Hcode & _)];
      [exact Hok |].
    destruct Hno. exact (failure_is_startup_failure argv h cin Hcode).
Qed.

(** X13.  However many lines are served, the library is loaded at most
    once and initialized at most once; in a run that succeeds it is
    loaded once, from the installation directory, and initialized once,
    on the terrain file resolved from the argument. *)
Theorem X13_loaded_and_initialized_once {E : Type} argv (h : host E) cin :
  List.length (loads (events (main argv h cin))) <= 1 /\
  List.length (inits (events (main argv h cin))) <= 1 /\
  (exit_code (main argv h cin) = EXIT_SUCCESS ->
   exists root_dir,
     InstallDir h = Some root_dir /\
     loads (events (main argv h cin)) = [dll_path root_dir] /\
     inits (events (main argv h cin)) = [trn_name root_dir (nth 1 argv "")]).
Proof.
  destruct (main_failure_shape argv h cin) as [Hok | (Hcode & _)].
  - destruct (main_success argv h cin Hok)
      as (root & lib & f_init & f_lon & f_lat &
          _ & Hdir & _ & _ & _ & _ & _ & Hmain).
    cbv zeta in Hmain. rewrite (Hmain cin); cbn [events].
    rewrite loads_app, inits_app.
    destruct (loop_quiet f_lon f_lat cin
                (snd (f_init (trn_name root (nth 1 argv "")) (image lib))))
      as (-> & -> & _).
    cbn [loads inits app List.length].
    repeat split; try lia. intros _. exists root. auto.
  - assert (Hne : exit_code (main argv h cin) = EXIT_SUCCESS -> False)
      by (rewrite Hcode; discriminate).
    revert Hne. unfold main.
    destruct (negb (List.length argv =? 2)%nat);
      [cbn; intros; repeat split; try lia; tauto |].
    destruct (InstallDir h) as [root_dir |];
      [| cbn; intros; repeat split; try lia; tauto].
    destruct (LoadLibraryA h (dll_path root_dir)) as [lib |];
      [| cbn; intros; repeat split; try lia; tauto].
    destruct (NaviConInit lib) as [f_init |];
      [| cbn; intros; repeat split; try lia; tauto].
    destruct (XYToLon lib) as [f_xy2lon |];
      [| cbn; intros; repeat split; try lia; tauto].
    destruct (XYToLat lib) as [f_xy2lat |];
      [| cbn; intros; repeat split; try lia; tauto].
    destruct (f_init _ _) as [init_ret e].
    destruct (init_ret =? 0)%Z;
      [cbn; intros; repeat split; try lia; tauto |].
    destruct (loop _ _ _ _) as [[evs rest] e'].
    cbn [exit_code]. intros Hne. now destruct Hne.
Qed.

(** X14.  No run writes to both streams.  A run that succeeds writes
    [READY] first and nothing to the diagnostic stream, whatever the
    input: a malformed request is reported on standard output.  A run that
    fails writes to the diagnostic stream and nothing to standard
    output. *)
Theorem X14_one_stream_per_run {E : Type} argv (h : host E) cin :
  (exit_code (main argv h cin) = EXIT_SUCCESS /\
   stderr (events (main argv h cin)) = [] /\
   hd_error (stdout (events (main argv h cin))) = Some "READY")
  \/
  (exit_code (main argv h cin) = EXIT_FAILURE /\
   stdout (events (main argv h cin)) = [] /\
   stderr (events (main argv h cin)) <> []).
Proof.
  destruct (main_failure_shape argv h cin)
    as [Hok | (Hcode & Hout & Herr & _)]; [left | right; auto].
  split; [exact Hok |].
  destruct (main_success argv h cin Hok)
    as (root & lib & f_init & f_lon & f_lat &
        _ & _ & _ & _ & _ & _ & _ & Hmain).
  cbv zeta in Hmain. rewrite (Hmain cin); cbn [events].
  rewrite stderr_app.
  destruct (loop_quiet f_lon f_lat cin
              (snd (f_init (trn_name root (nth 1 argv "")) (image lib))))
    as (_ & _ & ->).
  split; reflexivity.
Qed.

(** ** Scenery name or terrain file path *)

Lemma append_nil s : s ++ EmptyString = s.
Proof. induction s; cbn [append]; congruence. Qed.

Lemma append_assoc a b c : (a ++ b) ++ c = a ++ b ++ c.
Proof. induction a; cbn [append]; congruence. Qed.

Lemma prefix_app t b : prefix t (t ++ b) = true.
Proof.
  induction t as [| c t IH]; cbn [prefix append]; [now destruct b |].
  destruct (ascii_dec c c) as [_ | Hne]; [exact IH | now destruct Hne].
Qed.

Lemma prefix_split t : forall s, prefix t s = true -> exists b, s = t ++ b.
Proof.
  induction t as [| c t IH]; intros s; [now exists s |].
  destruct s as [| d s]; cbn [prefix]; [discriminate |].
  destruct (ascii_dec c d) as [<- | _]; [| discriminate].
  intros H. destruct (IH s H) as [b ->]. now exists b.
Qed.

Lemma index_occurs t s :
  t <> EmptyString -> (String.index 0 t s <> None <-> occurs t s).
Proof.
  intros Ht. split.
  - induction s as [| c s IH]; cbn [String.index].
    + destruct t; [now destruct Ht | intros H; now destruct H].
    + destruct (prefix t (String c s)) eqn:Hp.
      * intros _. destruct (prefix_split _ _ Hp) as [b Hb].
        exists EmptyString, b. exact Hb.
      * destruct (String.index 0 t s); [| intros H; now destruct H].
        intros _. destruct IH as (a & b & ->); [discriminate |].
        now exists (String c a), b.
  - intros (a & b & ->).
    induction a as [| c a IH]; cbn [append].
    + destruct (t ++ b) as [| c s] eqn:Hs.
      * destruct t; [now destruct Ht | discriminate Hs].
      * cbn [String.index]. rewrite <- Hs, prefix_app. discriminate.
    + cbn [String.index].
      destruct (prefix t (String c (a ++ t ++ b))); [discriminate |].
      destruct (String.index 0 t (a ++ t ++ b)); [discriminate | exact IH].
Qed.

Lemma find_occurs s t :
  t <> EmptyString -> (Str.is_npos (Str.find s t) = false <-> occurs t s).
Proof.
  intros Ht. rewrite <- (index_occurs t s Ht). unfold Str.find.
  destruct (String.index 0 t s); cbn [Str.is_npos]; split;
    congruence || discriminate.
Qed.

(** X15.  The argument is taken as the path of a terrain file exactly
    when [.trn], a backslash or a slash occurs somewhere in it; it is
    then used as it is, whatever the installation directory.  Any other
    argument is a scenery name [s], resolved to
    [root_dir\Landscapes\s\s.trn]. *)
Theorem X15_path_or_scenery (root_dir input1 : string) :
  (is_trn_path input1 = true <->
   occurs ".trn" input1 \/ occurs "\" input1 \/ occurs "/" input1) /\
  (is_trn_path input1 = true -> trn_name root_dir input1 = input1) /\
  (is_trn_path input1 = false ->
   trn_name root_dir input1 =
     root_dir ++ "\Landscapes\" ++ input1 ++ "\" ++ input1 ++ ".trn").
Proof.
  split; [| split; intros H; unfold trn_name; now rewrite H].
  unfold is_trn_path, Str.find_char.
  rewrite <- (find_occurs input1 ".trn") by discriminate.
  rewrite <- (find_occurs input1 "\") by discriminate.
  rewrite <- (find_occurs input1 "/") by discriminate.
  rewrite !orb_true_iff, !negb_true_iff. tauto.
Qed.

(** X16.  What the argument is resolved to is itself taken as a path:
    resolving it again changes nothing. *)
Theorem X16_resolution_is_idempotent (root_dir input1 : string) :
  is_trn_path (trn_name root_dir input1) = true /\
  trn_name root_dir (trn_name root_dir input1) = trn_name root_dir input1.
Proof.
  assert (H : is_trn_path (trn_name root_dir input1) = true).
  { unfold trn_name. destruct (is_trn_path input1) eqn:Hp; [exact Hp |].
    unfold is_trn_path at 1.
    assert (Hb : Str.is_npos
               (Str.find_char
                  (root_dir ++ "\Landscapes\" ++ input1 ++ "\" ++ input1 ++ ".trn")
                  "\"%char) = false).
    { apply find_occurs; [discriminate |].
      exists root_dir, ("Landscapes\" ++ input1 ++ "\" ++ input1 ++ ".trn").
      reflexivity. }
    rewrite Hb. cbn [negb]. now rewrite orb_true_r. }
  split; [exact H |]. unfold trn_name at 1. now rewrite H.
Qed.

(** ** Lines of a stream *)

Lemma no_newline_app a b : no_newline (a ++ b) = no_newline a && no_newline b.
Proof.
  induction a as [| c a IH]; cbn [no_newline append]; [reflexivity |].
  now rewrite IH, andb_assoc.
Qed.

Lemma getline_shortens cin : forall line rest,
  getline cin = Some (line, rest) -> String.length rest < String.length cin.
Proof.
  induction cin as [| c cin IH]; intros line rest; cbn [getline];
    [discriminate |].
  destruct (Ascii.eqb c newline).
  - intros [= _ <-]. cbn [String.length]. lia.
  - destruct (getline cin) as [[l r] |].
    + intros [= _ <-]. specialize (IH l r eq_refl). cbn [String.length]. lia.
    + intros [= _ <-]. cbn [String.length]. lia.
Qed.

(** More fuel than the stream has characters changes nothing. *)
Lemma getlines_fuel fuel : forall cin,
  String.length cin < fuel -> getlines fuel cin = cin_lines cin.
Proof.
  unfold cin_lines.
  assert (H : forall n fuel1 fuel2 cin,
            String.length cin < n -> n <= fuel1 -> n <= fuel2 ->
            getlines fuel1 cin = getlines fuel2 cin).
  { induction n as [| n IH]; intros fuel1 fuel2 cin Hn H1 H2; [lia |].
    destruct fuel1 as [| fuel1]; [lia |].
    destruct fuel2 as [| fuel2]; [lia |].
    cbn [getlines].
    destruct (getline cin) as [[l r] |] eqn:Hg; [| reflexivity].
    apply getline_shortens in Hg. f_equal. apply IH; lia. }
  intros cin Hf. apply (H (S (String.length cin))); lia.
Qed.

Lemma cin_lines_step cin line rest :
  getline cin = Some (line, rest) -> cin_lines cin = line :: cin_lines rest.
Proof.
  intros Hg. unfold cin_lines at 1. cbn [getlines]. rewrite Hg.
  f_equal. apply getlines_fuel. now apply getline_shortens in Hg.
Qed.

Lemma cin_lines_end cin : getline cin = None -> cin_lines cin = [].
Proof. intros Hg. unfold cin_lines. cbn [getlines]. now rewrite Hg. Qed.

Lemma getline_terminated line : forall rest,
  no_newline line = true ->
  getline (line ++ String newline rest) = Some (line, rest).
Proof.
  induction line as [| c line IH]; intros rest; cbn [no_newline append getline].
  - intros _. reflexivity.
  - intros H. apply andb_true_iff in H as [Hc Hl].
    apply negb_true_iff in Hc. now rewrite Hc, (IH rest Hl).
Qed.

Lemma getline_unterminated line :
  no_newline line = true -> line <> EmptyString ->
  getline line = Some (line, EmptyString).
Proof.
  induction line as [| c line IH]; cbn [no_newline getline];
    [intros _ H; now destruct H |].
  intros H _. apply andb_true_iff in H as [Hc Hl].
  apply negb_true_iff in Hc. rewrite Hc.
  destruct line as [| d line]; [reflexivity |].
  rewrite (IH Hl); [reflexivity | discriminate].
Qed.

(** X17.  Requests are framed by new-line characters: when no line has
    a new-line character in it, the stream in which each line is followed
    by one is read back as those lines; a last request that is not
    followed by a new-line character is read as well; and so the session
    on the stream is the session on the lines. *)
Theorem X17_line_framing {E : Type} argv (h : host E) lines last :
  Forall (fun l => no_newline l = true) lines ->
  no_newline last = true ->
  cin_lines (stream_of lines) = lines /\
  (last <> EmptyString ->
   cin_lines (stream_of lines ++ last) = (lines ++ [last])%list) /\
  main_stream argv h (stream_of lines) = main argv h lines.
Proof.
  intros Hlines Hlast.
  assert (H1 : cin_lines (stream_of lines) = lines).
  { induction Hlines as [| l lines Hl _ IH]; [reflexivity |].
    cbn [stream_of].
    rewrite (cin_lines_step _ l (stream_of lines)
               (getline_terminated l _ Hl)).
    now rewrite IH. }
  split; [exact H1 |]. split; [| unfold main_stream; now rewrite H1].
  intros Hne. clear H1.
  induction Hlines as [| l lines Hl _ IH]; cbn [stream_of app append].
  - rewrite (cin_lines_step _ last EmptyString
               (getline_unterminated last Hlast Hne)).
    reflexivity.
  - rewrite append_assoc. cbn [append].
    rewrite (cin_lines_step _ l (stream_of lines ++ last)
               (getline_terminated l _ Hl)).
    now rewrite IH.
Qed.

(** X17 on two requests, the second one without a new-line character
    behind it. *)
Lemma X17_line_framing_witness :
  Forall (fun l => no_newline l = true) ["1 2"] /\
  no_newline "3 4" = true /\
  cin_lines (stream_of ["1 2"]) = ["1 2"] /\
  ("3 4" <> EmptyString ->
   cin_lines (stream_of ["1 2"] ++ "3 4") = (["1 2"] ++ ["3 4"])%list) /\
  main_stream Sample.argv Sample.condor (stream_of ["1 2"]) =
    main Sample.argv Sample.condor ["1 2"].
Proof.
  assert (H1 : Forall (fun l => no_newline l = true) ["1 2"])
    by (repeat constructor).
  assert (H2 : no_newline "3 4" = true) by reflexivity.
  exact (conj H1 (conj H2
           (X17_line_framing Sample.argv Sample.condor ["1 2"] "3 4" H1 H2))).
Defined.

Lemma last_char_cons c s :
  s <> EmptyString -> last_char (String c s) = last_char s.
Proof. destruct s; [intros H; now destruct H | reflexivity]. Qed.

Lemma last_char_some s : s <> EmptyString -> last_char s <> None.
Proof.
  induction s as [| c s IH]; [intros H; now destruct H |].
  intros _. destruct s as [| d s]; [discriminate |].
  rewrite last_char_cons by discriminate. apply IH. discriminate.
Qed.

Lemma getline_some cin : cin <> EmptyString -> getline cin <> None.
Proof.
  destruct cin as [| c cin]; [intros H; now destruct H |].
  intros _. cbn [getline].
  destruct (Ascii.eqb c newline); [discriminate |].
  destruct (getline cin) as [[? ?] |]; discriminate.
Qed.

(** X18.  Whatever the stream, no line read from it has a new-line
    character in it, and the lines, each followed by a new-line
    character, make up the stream again: exactly the stream when it is
    empty or ends with a new-line character, and the stream with one
    new-line character added at the end when it ends with another
    character. *)
Theorem X18_lines_make_up_the_stream (cin : string) :
  Forall (fun l => no_newline l = true) (cin_lines cin) /\
  stream_of (cin_lines cin) =
    match last_char cin with
    | None => EmptyString
    | Some c =>
        if Ascii.eqb c newline then cin
        else cin ++ String newline EmptyString
    end.
Proof.
  induction cin as [| c cin [IHn IHs]].
  - split; [constructor | reflexivity].
  - destruct (Ascii.eqb c newline) eqn:Hc.
    + assert (Hg : getline (String c cin) = Some (EmptyString, cin))
        by (cbn [getline]; now rewrite Hc).
      rewrite (cin_lines_step _ _ _ Hg).
      split; [constructor; [reflexivity | exact IHn] |].
      cbn [stream_of append]. rewrite IHs.
      apply Ascii.eqb_eq in Hc. subst c.
      destruct cin as [| d cin]; [reflexivity |].
      change (last_char (String newline (String d cin)))
        with (last_char (String d cin)).
      destruct (last_char (String d cin)) as [c' |] eqn:Hlast.
      * destruct (Ascii.eqb c' newline); reflexivity.
      * now destruct (last_char_some (String d cin)).
    + destruct (getline cin) as [[l r] |] eqn:Hg'.
      * assert (Hg : getline (String c cin) = Some (String c l, r))
          by (cbn [getline]; now rewrite Hc, Hg').
        rewrite (cin_lines_step _ _ _ Hg).
        rewrite (cin_lines_step _ _ _ Hg') in IHn, IHs.
        inversion IHn as [| ? ? Hl Hr]; subst.
        split.
        -- constructor; [| exact Hr]. cbn [no_newline]. now rewrite Hc, Hl.
        -- cbn [stream_of append] in *. rewrite IHs.
           assert (Hne : cin <> EmptyString)
             by (intros ->; discriminate Hg').
           rewrite (last_char_cons c cin Hne).
           destruct (last_char cin) as [c' |] eqn:Hlast.
           ++ destruct (Ascii.eqb c' newline); reflexivity.
           ++ now destruct (last_char_some cin Hne).
      * assert (Hg : getline (String c cin)
                     = Some (String c EmptyString, EmptyString))
          by (cbn [getline]; now rewrite Hc, Hg').
        rewrite (cin_lines_step _ _ _ Hg).
        assert (cin = EmptyString).
        { destruct cin as [| d cin]; [reflexivity |].
          now destruct (getline_some (String d cin)). }
        subst cin. split.
        -- repeat constructor. cbn [no_newline]. now rewrite Hc.
        -- cbn [stream_of append last_char]. now rewrite Hc.
Qed.

(** ** Lines with the same trimmed text *)

Lemma body_trim {E : Type} (f_xy2lon f_xy2lat : f_funcf E) l1 l2 e :
  trim l1 = trim l2 ->
  body f_xy2lon f_xy2lat l1 e = body f_xy2lon f_xy2lat l2 e.
Proof. intros H. unfold body. now rewrite H. Qed.

(** X19.  A session depends on its input lines only through their
    trimmed text: two inputs whose lines trim, one by one, to the same
    texts (the same requests with and without a carriage return at the
    end of each line, for one) give the same output, the same calls and
    the same final state of the library. *)
Theorem X19_only_the_trimmed_text_counts {E : Type}
    (f_xy2lon f_xy2lat : f_funcf E) cin1 cin2 :
  Forall2 (fun l1 l2 => trim l1 = trim l2) cin1 cin2 ->
  forall e,
    stdout (trace_of (loop f_xy2lon f_xy2lat cin1 e)) =
      stdout (trace_of (loop f_xy2lon f_xy2lat cin2 e)) /\
    calls (trace_of (loop f_xy2lon f_xy2lat cin1 e)) =
      calls (trace_of (loop f_xy2lon f_xy2lat cin2 e)) /\
    state_of (loop f_xy2lon f_xy2lat cin1 e) =
      state_of (loop f_xy2lon f_xy2lat cin2 e).
Proof.
  induction 1 as [| l1 l2 cin1 cin2 Hl _ IH]; intros e; [repeat split |].
  destruct (String.eqb_spec (trim l1) "EXIT") as [H1 | H1].
  - assert (H2 : trim l2 = "EXIT") by congruence.
    rewrite (trace_break _ _ _ _ _ H1), (trace_break _ _ _ _ _ H2).
    rewrite (state_break _ _ _ _ _ H1), (state_break _ _ _ _ _ H2).
    repeat split.
  - assert (H2 : trim l2 <> "EXIT") by congruence.
    rewrite (trace_continue _ _ _ _ _ H1), (trace_continue _ _ _ _ _ H2).
    rewrite (state_continue _ _ _ _ _ H1), (state_continue _ _ _ _ _ H2).
    rewrite (body_trim _ _ l1 l2 e Hl).
    cbn [stdout calls]. rewrite !stdout_app, !calls_app.
    destruct (IH (snd (body f_xy2lon f_xy2lat l2 e))) as (-> & -> & ->).
    repeat split.
Qed.

(** X19 on a session whose lines end in a carriage return. *)
Lemma X19_only_the_trimmed_text_counts_witness :
  Forall2 (fun l1 l2 => trim l1 = trim l2)
    [String "1" (String " " (String "2" (String "013" EmptyString)));
     String "013" EmptyString;
     String "E" (String "X" (String "I" (String "T" (String "013" EmptyString))))]
    ["1 2"; ""; "EXIT"] /\
  forall e,
    stdout (trace_of (loop Sample.lon Sample.lat
      [String "1" (String " " (String "2" (String "013" EmptyString)));
       String "013" EmptyString;
       String "E" (String "X" (String "I" (String "T" (String "013" EmptyString))))]
      e)) =
      stdout (trace_of (loop Sample.lon Sample.lat ["1 2"; ""; "EXIT"] e)) /\
    calls (trace_of (loop Sample.lon Sample.lat
      [String "1" (String " " (String "2" (String "013" EmptyString)));
       String "013" EmptyString;
       String "E" (String "X" (String "I" (String "T" (String "013" EmptyString))))]
      e)) =
      calls (trace_of (loop Sample.lon Sample.lat ["1 2"; ""; "EXIT"] e)) /\
    state_of (loop Sample.lon Sample.lat
      [String "1" (String " " (String "2" (String "013" EmptyString)));
       String "013" EmptyString;
       String "E" (String "X" (String "I" (String "T" (String "013" EmptyString))))]
      e) =
      state_of (loop Sample.lon Sample.lat ["1 2"; ""; "EXIT"] e).
Proof.
  assert (H : Forall2 (fun l1 l2 => trim l1 = trim l2)
    [String "1" (String " " (String "2" (String "013" EmptyString)));
     String "013" EmptyString;
     String "E" (String "X" (String "I" (String "T" (String "013" EmptyString))))]
    ["1 2"; ""; "EXIT"])
    by (repeat constructor).
  exact (conj H (X19_only_the_trimmed_text_counts Sample.lon Sample.lat _ _ H)).
Defined.

(** X20.  A field of a conversion line is in the fixed-point form with
    eight decimals exactly when the float it is written for is finite:
    an infinity and a not-a-number are the only results a reader finds
    written otherwise. *)
Theorem X20_fixed_form_iff_finite (f : f32) : is_fixed8 (fixed8 f) = is_finite f.
Proof.
  destruct (is_finite f) eqn:Hf; [now apply is_fixed8_finite |].
  destruct f as [s | [] | [] chars | s m e]; try discriminate Hf; reflexivity.
Qed.
